(** * Social burden tool: a shallow embedding and its verified properties

    The development follows the two Python modules of the package:
    [load_layers.py] (class [ServiceLevels]) and [social_burden.py]
    (class [SocialBurdenCalculator]).

    Numbers.  numpy [float64] scalars are modelled by [float64] below: the
    IEEE special values NaN, +Inf and -Inf are kept, with the IEEE rules for
    arithmetic on them, and a finite value is a real number.  Rounding,
    overflow, underflow and the sign of zero are abstracted: finite
    arithmetic is exact and every zero is +0.

    Exceptions.  Python exceptions are values of [exn]; a computation that
    can raise returns a [result].  Methods of an object with mutable
    attributes are state transformers that keep the attribute store of the
    object on both outcomes, since an assignment made before a [raise]
    stays visible afterwards. *)

From Stdlib Require Import Reals Lra Lia.
From stdpp Require Import gmap strings list.

Set Default Proof Using "Type".

(** ** Exceptions and results *)

Inductive exn : Type :=
  | AttributeError (name : string)
  | KeyError (key : string)
  | TypeError (msg : string)
  | ValueError (msg : string)
  | FileNotFoundError (path : string)
  | OSError (path : string).

Inductive result (A : Type) : Type :=
  | Ok (a : A)
  | Raise (e : exn).
Arguments Ok {A} a.
Arguments Raise {A} e.

Definition rbind {A B} (r : result A) (k : A -> result B) : result B :=
  match r with
  | Ok a => k a
  | Raise e => Raise e
  end.

Declare Scope result_scope.
Delimit Scope result_scope with result.
Notation "x <- r ;; k" := (rbind r (fun x => k))
  (at level 100, r at next level, right associativity) : result_scope.

(** A list comprehension [[f(x) for x in xs]]: the calls are made left to
    right and the first exception ends the comprehension. *)
Fixpoint comprehension {A B} (f : A -> result B) (xs : list A) : result (list B) :=
  match xs with
  | [] => Ok []
  | x :: xs' =>
      match f x with
      | Raise e => Raise e
      | Ok y =>
          match comprehension f xs' with
          | Raise e => Raise e
          | Ok ys => Ok (y :: ys)
          end
      end
  end.

Definition is_raise {A} (r : result A) : Prop :=
  match r with Raise _ => True | Ok _ => False end.

(** ** numpy float64 scalars *)

Inductive float64 : Type :=
  | NaN
  | PInf
  | NInf
  | Fin (r : R).

Definition is_finite (x : float64) : Prop :=
  match x with Fin _ => True | _ => False end.

Module F64.
Local Open Scope R_scope.

Definition zero : float64 := Fin 0.
Definition one : float64 := Fin 1.

(** Largest finite double, [(2 - 2^-52) * 2^1023]. *)
Definition max_value : R := 2 ^ 1024 - 2 ^ 971.

Definition neg (x : float64) : float64 :=
  match x with
  | NaN => NaN
  | PInf => NInf
  | NInf => PInf
  | Fin r => Fin (- r)
  end.

(** Finite arithmetic is exact: the sum, product or quotient of finite
    values is the real one, also where IEEE rounds it or, beyond
    [max_value], replaces it by an infinity.  A statement that holds
    only while the result stays in range carries the bound as a
    hypothesis. *)
Definition add (x y : float64) : float64 :=
  match x, y with
  | NaN, _ | _, NaN => NaN
  | PInf, NInf | NInf, PInf => NaN
  | PInf, _ | _, PInf => PInf
  | NInf, _ | _, NInf => NInf
  | Fin a, Fin b => Fin (a + b)
  end.

(** An infinity times a finite value: NaN at zero, otherwise the
    infinity with the product of the signs. *)
Definition inf_times (positive : bool) (r : R) : float64 :=
  if Req_dec_T r 0 then NaN
  else if Rlt_dec 0 r then (if positive then PInf else NInf)
  else (if positive then NInf else PInf).

Definition mul (x y : float64) : float64 :=
  match x, y with
  | NaN, _ | _, NaN => NaN
  | PInf, PInf | NInf, NInf => PInf
  | PInf, NInf | NInf, PInf => NInf
  | PInf, Fin r | Fin r, PInf => inf_times true r
  | NInf, Fin r | Fin r, NInf => inf_times false r
  | Fin a, Fin b => Fin (a * b)
  end.

(** [div x y] is [x / y].  A finite non-zero value over zero is an
    infinity, zero over zero is NaN; numpy only warns. *)
Definition div (x y : float64) : float64 :=
  match x, y with
  | NaN, _ | _, NaN => NaN
  | (PInf | NInf), (PInf | NInf) => NaN
  | PInf, Fin b => if Rlt_dec b 0 then NInf else PInf
  | NInf, Fin b => if Rlt_dec b 0 then PInf else NInf
  | Fin _, (PInf | NInf) => Fin 0
  | Fin a, Fin b =>
      if Req_dec_T b 0 then
        (if Req_dec_T a 0 then NaN
         else if Rlt_dec 0 a then PInf else NInf)
      else Fin (a / b)
  end.

(** [x > y] and [x == y]; every comparison with NaN is false. *)
Definition gtb (x y : float64) : bool :=
  match x, y with
  | NaN, _ | _, NaN => false
  | PInf, PInf => false
  | PInf, _ => true
  | _, PInf => false
  | NInf, _ => false
  | Fin _, NInf => true
  | Fin a, Fin b => if Rlt_dec b a then true else false
  end.

Definition eqb (x y : float64) : bool :=
  match x, y with
  | PInf, PInf | NInf, NInf => true
  | Fin a, Fin b => if Req_dec_T a b then true else false
  | _, _ => false
  end.

(** [np.nan_to_num(x, nan=v)] with the default [posinf] and [neginf]. *)
Definition nan_to_num (nan : R) (x : float64) : float64 :=
  match x with
  | NaN => Fin nan
  | PInf => Fin max_value
  | NInf => Fin (- max_value)
  | Fin r => Fin r
  end.
End F64.

(** ** A method monad: attribute store plus exceptions *)

Definition method (S A : Type) : Type := S -> result A * S.

Definition mret {S A} (a : A) : method S A := fun s => (Ok a, s).
Definition mraise {S A} (e : exn) : method S A := fun s => (Raise e, s).
Definition mbind {S A B} (m : method S A) (k : A -> method S B) : method S B :=
  fun s =>
    match m s with
    | (Ok a, s') => k a s'
    | (Raise e, s') => (Raise e, s')
    end.
Definition mlift {S A} (r : result A) : method S A := fun s => (r, s).
Definition mget {S} : method S S := fun s => (Ok s, s).
Definition mmodify {S} (f : S -> S) : method S unit := fun s => (Ok tt, f s).

Declare Scope method_scope.
Delimit Scope method_scope with method.
Notation "x <- m ;; k" := (mbind m (fun x => k))
  (at level 100, m at next level, right associativity) : method_scope.
Notation "m ;; k" := (mbind m (fun _ => k))
  (at level 100, right associativity) : method_scope.

(** ** pandas frames, as far as [load_layers.py] uses them *)

(** A value held in a frame: text or a number.  Labels of both axes are
    such values too. *)
Inductive cell : Type :=
  | Str (s : string)
  | Num (x : float64).

Definition cell_eqb (a b : cell) : bool :=
  match a, b with
  | Str s, Str t => String.eqb s t
  | Num x, Num y => F64.eqb x y
  | _, _ => false
  end.

Definition cell_text (c : cell) : string :=
  match c with Str s => s | Num _ => "<number>" end.

(** A Python [dict] in insertion order; assigning to a present key
    replaces its value in place. *)
Definition dict : Type := list (cell * cell).

Fixpoint dict_set (k v : cell) (d : dict) : dict :=
  match d with
  | [] => [(k, v)]
  | (k', v') :: d' =>
      if cell_eqb k' k then (k', v) :: d' else (k', v') :: dict_set k v d'
  end.

Fixpoint dict_lookup (d : dict) (k : cell) : option cell :=
  match d with
  | [] => None
  | (k', v) :: d' => if cell_eqb k' k then Some v else dict_lookup d' k
  end.

(** [d.get(k, default)] *)
Definition dict_get (d : dict) (k default : cell) : cell :=
  match dict_lookup d k with
  | Some v => v
  | None => default
  end.

Record Series : Type := mkSeries {
  s_index : list cell;
  s_values : list cell
}.

Record DataFrame : Type := mkFrame {
  index : list cell;
  columns : list cell;
  rows : list (list cell)
}.

Module Pandas.

(** Position of the first label equal to [k]. *)
Fixpoint position (k : cell) (labels : list cell) : option nat :=
  match labels with
  | [] => None
  | l :: labels' =>
      if cell_eqb l k then Some 0%nat
      else option_map S (position k labels')
  end.

Fixpoint drop_nth {A} (n : nat) (l : list A) : list A :=
  match n, l with
  | _, [] => []
  | O, _ :: l' => l'
  | S n', x :: l' => x :: drop_nth n' l'
  end.

Definition column_cells (p : nat) (df : DataFrame) : list cell :=
  map (fun r => nth p r (Num NaN)) (rows df).

(** [df.set_index(key)]: the column becomes the row labels and leaves
    the columns. *)
Definition set_index (key : string) (df : DataFrame) : result DataFrame :=
  match position (Str key) (columns df) with
  | None => Raise (KeyError key)
  | Some p =>
      Ok {| index := column_cells p df;
            columns := drop_nth p (columns df);
            rows := map (drop_nth p) (rows df) |}
  end.

(** [df[key]] for a single column label. *)
Definition getitem (key : cell) (df : DataFrame) : result Series :=
  match position key (columns df) with
  | None => Raise (KeyError (cell_text key))
  | Some p => Ok {| s_index := index df; s_values := column_cells p df |}
  end.

(** [series.to_dict()]: a later row with the same label overwrites. *)
Definition to_dict (s : Series) : dict :=
  fold_left (fun d kv => dict_set (fst kv) (snd kv) d)
            (combine (s_index s) (s_values s)) [].

(** [df.iloc[:, k:]] *)
Definition iloc_columns_from (k : nat) (df : DataFrame) : DataFrame :=
  {| index := index df;
     columns := drop k (columns df);
     rows := map (drop k) (rows df) |}.

(** [df.T] *)
Definition T (df : DataFrame) : DataFrame :=
  {| index := columns df;
     columns := index df;
     rows := map (fun j => column_cells j df)
                 (seq 0 (length (columns df))) |}.

(** What [df.loc[r, c]] returns for two labels: the cell when each
    label occurs once on its axis, the Series of the matching cells
    when one of the two is repeated, and the frame of the matching
    cells when both are. *)
Inductive selection : Type :=
  | Scalar (c : cell)
  | SeriesOf (s : Series)
  | FrameOf (df : DataFrame).

(** How often a label occurs on an axis. *)
Definition occurrences (key : cell) (labels : list cell) : nat :=
  length (List.filter (fun l => cell_eqb l key) labels).

(** The entries of [values] that stand under the label [key]. *)
Definition labelled {A} (key : cell) (labels : list cell) (values : list A)
  : list A :=
  map snd (List.filter (fun lv => cell_eqb (fst lv) key) (combine labels values)).

(** [df.loc[r, c]].  A label that is on its axis nowhere raises
    [KeyError]; the row label is looked up first, as on pandas' general
    path.  (The fast path pandas 2 takes when no label is repeated on
    either axis looks the column up first, so that with both labels
    missing its [KeyError] names the column label; the class of the
    exception is the same.) *)
Definition loc (df : DataFrame) (r c : cell) : result selection :=
  match position r (index df) with
  | None => Raise (KeyError (cell_text r))
  | Some i =>
      match position c (columns df) with
      | None => Raise (KeyError (cell_text c))
      | Some j =>
          let found := labelled r (index df) (rows df) in
          match occurrences r (index df), occurrences c (columns df) with
          | 1%nat, 1%nat =>
              Ok (Scalar (nth j (nth i (rows df) []) (Num NaN)))
          | 1%nat, m =>
              Ok (SeriesOf
                    {| s_index := repeat c m;
                       s_values := labelled c (columns df) (nth i (rows df) []) |})
          | n, 1%nat =>
              Ok (SeriesOf
                    {| s_index := repeat r n;
                       s_values := map (fun row => nth j row (Num NaN)) found |})
          | n, m =>
              Ok (FrameOf
                    {| index := repeat r n; columns := repeat c m;
                       rows := map (labelled c (columns df)) found |})
          end
      end
  end.

End Pandas.

(** ** [load_layers.py]: class [ServiceLevels] *)

(** The files [pd.read_csv] can see: a path is mapped to the frame that
    reading it gives (default integer row labels, one column per CSV
    column). *)
Abbreviation FileSystem := (gmap string DataFrame).

Definition read_csv (fs : FileSystem) (csv_path : string) : result DataFrame :=
  match fs !! csv_path with
  | Some df => Ok df
  | None => Raise (FileNotFoundError csv_path)
  end.

Module ServiceLevels.

(** The instance attributes the class body mentions.  An attribute that
    was never assigned is [None]; reading it raises [AttributeError].
    [__init__] assigns to [sevice_levels_df] and reads
    [service_levels_df]: both spellings are attributes of their own. *)
Record t : Type := mk {
  sevice_levels_df : option DataFrame;
  service_levels_df : option DataFrame;
  J_l : option dict;
  M_l : option dict;
  service_levels : option DataFrame
}.

(** A fresh instance, as [__init__] receives it. *)
Definition blank : t :=
  {| sevice_levels_df := None; service_levels_df := None;
     J_l := None; M_l := None; service_levels := None |}.

Definition read_attr {A} (name : string) (field : t -> option A) : method t A :=
  fun self =>
    match field self with
    | Some v => (Ok v, self)
    | None => (Raise (AttributeError name), self)
    end.

Definition set_sevice_levels_df (df : DataFrame) : method t unit :=
  mmodify (fun self =>
    {| sevice_levels_df := Some df;
       service_levels_df := service_levels_df self;
       J_l := J_l self; M_l := M_l self;
       service_levels := service_levels self |}).

Definition set_J_l (d : dict) : method t unit :=
  mmodify (fun self =>
    {| sevice_levels_df := sevice_levels_df self;
       service_levels_df := service_levels_df self;
       J_l := Some d; M_l := M_l self;
       service_levels := service_levels self |}).

Definition set_M_l (d : dict) : method t unit :=
  mmodify (fun self =>
    {| sevice_levels_df := sevice_levels_df self;
       service_levels_df := service_levels_df self;
       J_l := J_l self; M_l := Some d;
       service_levels := service_levels self |}).

Definition set_service_levels (df : DataFrame) : method t unit :=
  mmodify (fun self =>
    {| sevice_levels_df := sevice_levels_df self;
       service_levels_df := service_levels_df self;
       J_l := J_l self; M_l := M_l self;
       service_levels := Some df |}).

(** [df.set_index("Facility Type")[column].to_dict()] *)
Definition effort_dict (column : string) (df : DataFrame) : result dict :=
  (keyed <- Pandas.set_index "Facility Type" df ;;
   s <- Pandas.getitem (Str column) keyed ;;
   Ok (Pandas.to_dict s))%result.

(** [df.set_index("Facility Type").iloc[:, 2:].T] *)
Definition level_frame (df : DataFrame) : result DataFrame :=
  (keyed <- Pandas.set_index "Facility Type" df ;;
   Ok (Pandas.T (Pandas.iloc_columns_from 2 keyed)))%result.

(** [__init__(self, csv_path)], statement by statement. *)
Definition init (fs : FileSystem) (csv_path : string) : method t unit :=
  (df <- mlift (read_csv fs csv_path) ;;
   set_sevice_levels_df df ;;
   df1 <- read_attr "service_levels_df" service_levels_df ;;
   d <- mlift (effort_dict "Zero Distance Effort" df1) ;;
   set_J_l d ;;
   df2 <- read_attr "service_levels_df" service_levels_df ;;
   d' <- mlift (effort_dict "Effort Per Foot" df2) ;;
   set_M_l d' ;;
   df3 <- read_attr "service_levels_df" service_levels_df ;;
   f <- mlift (level_frame df3) ;;
   set_service_levels f ;;
   mret tt)%method.

(** The expression [ServiceLevels(csv_path)]: the instance, unless
    [__init__] raises. *)
Definition new (fs : FileSystem) (csv_path : string) : result t :=
  match init fs csv_path blank with
  | (Ok _, self) => Ok self
  | (Raise e, _) => Raise e
  end.

Definition get_service_levels (self : t) : result DataFrame :=
  fst (read_attr "service_levels" service_levels self).

(** [self.J_l.get(facility_type, 0.4)] *)
Definition get_zero_distance_effort (self : t) (facility_type : cell) : result cell :=
  (d <- fst (read_attr "J_l" J_l self) ;;
   Ok (dict_get d facility_type (Num (Fin 0.4%R))))%result.

(** [self.M_l.get(facility_type, 0.05)] *)
Definition get_effort_per_foot (self : t) (facility_type : cell) : result cell :=
  (d <- fst (read_attr "M_l" M_l self) ;;
   Ok (dict_get d facility_type (Num (Fin 0.05%R))))%result.

(** [self.service_levels.loc[facility_type, population_group]] *)
Definition get_service_level (self : t) (facility_type population_group : cell)
  : result Pandas.selection :=
  (f <- fst (read_attr "service_levels" service_levels self) ;;
   Pandas.loc f facility_type population_group)%result.

(** The instance the three extraction statements of [__init__] build
    from a frame [df], had the constructor kept [df] under the name it
    reads. *)
Definition loaded_from (df : DataFrame) : result t :=
  (j <- effort_dict "Zero Distance Effort" df ;;
   m <- effort_dict "Effort Per Foot" df ;;
   f <- level_frame df ;;
   Ok {| sevice_levels_df := Some df; service_levels_df := None;
         J_l := Some j; M_l := Some m; service_levels := Some f |})%result.

End ServiceLevels.

(** ** numpy arrays *)

(** A two-dimensional [float64] array: its shape and its items.  Only the
    items inside the shape are meaningful.  One-dimensional arrays are
    lists. *)
Record ndarray : Type := mkArray {
  nrows : nat;
  ncols : nat;
  item : nat -> nat -> float64
}.

Module Numpy.
Local Open Scope R_scope.

(** [np.radians] on one value. *)
Definition radians (deg : R) : R := deg * (PI / 180).

(** The numbers of a one-dimensional array built from Python values;
    arithmetic on an array holding text raises. *)
Definition as_floats (cells : list cell) : result (list float64) :=
  comprehension
    (fun c => match c with
              | Num x => Ok x
              | Str _ => Raise (TypeError "non-numeric array")
              end) cells.

Definition map_items (f : float64 -> float64) (A : ndarray) : ndarray :=
  {| nrows := nrows A; ncols := ncols A;
     item := fun i j => f (item A i j) |}.

(** [A op v] for [A] of shape (N, L) and [v] of shape (K,), with numpy
    broadcasting of the last axis. *)
Definition broadcast_row (op : float64 -> float64 -> float64)
    (A : ndarray) (v : list float64) : result ndarray :=
  if (ncols A =? length v)%nat then
    Ok {| nrows := nrows A; ncols := ncols A;
          item := fun i j => op (item A i j) (nth j v NaN) |}
  else if (length v =? 1)%nat then
    Ok {| nrows := nrows A; ncols := ncols A;
          item := fun i j => op (item A i j) (nth 0 v NaN) |}
  else if (ncols A =? 1)%nat then
    Ok {| nrows := nrows A; ncols := length v;
          item := fun i j => op (item A i 0%nat) (nth j v NaN) |}
  else Raise (ValueError "operands could not be broadcast together").

(** [A op v.reshape(-1, 1)] for [A] of shape (N, C) and [v] of K items,
    with numpy broadcasting of the first axis. *)
Definition broadcast_column (op : float64 -> float64 -> float64)
    (A : ndarray) (v : list float64) : result ndarray :=
  if (nrows A =? length v)%nat then
    Ok {| nrows := nrows A; ncols := ncols A;
          item := fun i j => op (item A i j) (nth i v NaN) |}
  else if (length v =? 1)%nat then
    Ok {| nrows := nrows A; ncols := ncols A;
          item := fun i j => op (item A i j) (nth 0 v NaN) |}
  else if (nrows A =? 1)%nat then
    Ok {| nrows := length v; ncols := ncols A;
          item := fun i j => op (item A 0%nat j) (nth i v NaN) |}
  else Raise (ValueError "operands could not be broadcast together").

(** [np.where(A > 0, 1 / A, 0)] *)
Definition where_positive_reciprocal (A : ndarray) : ndarray :=
  map_items (fun x => if F64.gtb x F64.zero then F64.div F64.one x
                      else F64.zero) A.

(** [np.array(rows)] for a non-empty list of equally long numeric rows;
    rows of different lengths, or text, make the construction or the
    product that uses it raise. *)
Definition array (first : list cell) (more : list (list cell)) : result ndarray :=
  if forallb (fun r => (length r =? length first)%nat) more then
    (data <- comprehension as_floats (first :: more) ;;
     Ok {| nrows := S (length more); ncols := length first;
           item := fun i j => nth j (nth i data []) NaN |})%result
  else Raise (ValueError "inhomogeneous shape").

(** [A.T] *)
Definition T (A : ndarray) : ndarray :=
  {| nrows := ncols A; ncols := nrows A; item := fun i j => item A j i |}.

(** The sum of [f 0], ..., [f (n - 1)], accumulated from zero. *)
Definition sum_upto (n : nat) (f : nat -> float64) : float64 :=
  fold_left (fun acc l => F64.add acc (f l)) (seq 0 n) F64.zero.

(** [np.dot(A, B)] for two-dimensional arrays. *)
Definition dot (A B : ndarray) : result ndarray :=
  if (ncols A =? nrows B)%nat then
    Ok {| nrows := nrows A; ncols := ncols B;
          item := fun i j =>
            sum_upto (ncols A) (fun l => F64.mul (item A i l) (item B l j)) |}
  else Raise (ValueError "shapes not aligned").

(** [A[A == 0] = np.nan], on a fresh array. *)
Definition zeros_to_nan (A : ndarray) : ndarray :=
  map_items (fun x => if F64.eqb x F64.zero then NaN else x) A.

(** [1 / A] *)
Definition reciprocal (A : ndarray) : ndarray :=
  map_items (F64.div F64.one) A.

(** [np.nan_to_num(A, nan=v)] *)
Definition nan_to_num (nan : R) (A : ndarray) : ndarray :=
  map_items (F64.nan_to_num nan) A.

(** [A * c] for a Python number [c]. *)
Definition scale (c : R) (A : ndarray) : ndarray :=
  map_items (fun x => F64.mul x (Fin c)) A.

End Numpy.

(** ** scikit-learn: [sklearn.metrics.pairwise.haversine_distances] *)

Module Sklearn.
Local Open Scope R_scope.

(** The library documents its input as rows [[latitude, longitude]] in
    radians, the first coordinate being the latitude, and its output as
    the angle
    [2 * arcsin(sqrt(sin^2((x_0 - y_0) / 2)
                     + cos(x_0) * cos(y_0) * sin^2((x_1 - y_1) / 2)))]. *)
Definition haversine (x y : R * R) : R :=
  2 * asin (sqrt ((sin ((fst x - fst y) / 2)) ^ 2
                  + cos (fst x) * cos (fst y)
                    * (sin ((snd x - snd y) / 2)) ^ 2)).

(** The pairwise matrix; the input check of the library refuses an
    array without rows. *)
Definition haversine_distances (X Y : list (R * R)) : result ndarray :=
  match X, Y with
  | [], _ | _, [] => Raise (ValueError "Found array with 0 sample(s)")
  | _, _ =>
      Ok {| nrows := length X; ncols := length Y;
            item := fun n l =>
              Fin (haversine (nth n X (0, 0)) (nth l Y (0, 0))) |}
  end.

End Sklearn.

(** ** The collaborators of the calculator *)

(** What [social_burden.py] asks of the population object: the attribute
    [gdf_layer], a frame with the columns [CBG_longitude] and
    [CBG_latitude] (centroid coordinates in degrees), and the method
    [merge_data(column)], which returns a frame. *)
Module PopulationGroupInfo.
Record row : Type := mkRow {
  CBG_longitude : R;
  CBG_latitude : R
}.
Record t : Type := mk {
  gdf_layer : list row;
  merge_data : string -> result DataFrame
}.
End PopulationGroupInfo.

(** What it asks of the facility object: the attribute [gdf_layer], a
    frame with the columns [Facility_longitude], [Facility_latitude] and
    [Facility Type].  [FacilityInfo.load_layer] keeps a layer only after
    [validate_layer] has refused an empty one, so the layer has a first
    row. *)
Module FacilityInfo.
Record row : Type := mkRow {
  Facility_longitude : R;
  Facility_latitude : R;
  Facility_Type : cell
}.
Record t : Type := mk {
  first_row : row;
  more_rows : list row
}.
Definition gdf_layer (self : t) : list row := first_row self :: more_rows self.
End FacilityInfo.

(** What it asks of the service-level object: the two effort getters of
    [ServiceLevels], subscripting by a facility type
    ([self.service_levels[ft]], a series) and the attribute [index]. *)
Class ServiceLevelsLike (T : Type) : Type := {
  get_zero_distance_effort : T -> cell -> result cell;
  get_effort_per_foot : T -> cell -> result cell;
  subscript : T -> cell -> result Series;
  index_of : T -> result (list cell)
}.

(** The class [ServiceLevels] itself defines the two getters only:
    subscripting an instance is a [TypeError] and it has no attribute
    [index]. *)
#[export] Instance ServiceLevels_like : ServiceLevelsLike ServiceLevels.t := {
  get_zero_distance_effort := ServiceLevels.get_zero_distance_effort;
  get_effort_per_foot := ServiceLevels.get_effort_per_foot;
  subscript := fun _ _ => Raise (TypeError "'ServiceLevels' object is not subscriptable");
  index_of := fun _ => Raise (AttributeError "index")
}.

(** Modelled from the spec: the service-level provider of sections 4.1
    and 6, on which all four accesses of the calculator are defined and
    which no class of the package supplies.  The getters are those of
    [ServiceLevels]; subscripting by a facility type gives the
    service-level row of that type, indexed by category, and [index]
    gives the categories: both are read from the frame [service_levels]
    (categories by facility types). *)
Module LevelTable.
Record t : Type := mk { levels : ServiceLevels.t }.

Definition subscript (self : t) (ft : cell) : result Series :=
  (f <- ServiceLevels.get_service_levels (levels self) ;;
   Pandas.getitem ft f)%result.

Definition index_of (self : t) : result (list cell) :=
  (f <- ServiceLevels.get_service_levels (levels self) ;;
   Ok (index f))%result.
End LevelTable.

#[export] Instance LevelTable_like : ServiceLevelsLike LevelTable.t := {
  get_zero_distance_effort := fun self => ServiceLevels.get_zero_distance_effort (LevelTable.levels self);
  get_effort_per_foot := fun self => ServiceLevels.get_effort_per_foot (LevelTable.levels self);
  subscript := LevelTable.subscript;
  index_of := LevelTable.index_of
}.

(** The files on disk: what [pd.read_csv] finds, and the paths [to_csv]
    cannot write. *)
Record Disk : Type := mkDisk {
  files : FileSystem;
  locked : gset string
}.

(** [frame.to_csv(path, index=False)] *)
Definition to_csv (frame : DataFrame) (output_path : string) (d : Disk) : result Disk :=
  if decide (output_path ∈ locked d) then Raise (OSError output_path)
  else Ok {| files := <[output_path := frame]> (files d); locked := locked d |}.

(** Default integer labels [0 .. n-1]. *)
Definition RangeIndex (n : nat) : list cell :=
  map (fun i => Num (Fin (INR i))) (seq 0 n).

(** [pd.DataFrame(A)] and [pd.DataFrame(A, columns=labels)] *)
Definition frame_of_array (A : ndarray) (labels : option (list cell)) : result DataFrame :=
  let body := map (fun i => map (fun j => Num (item A i j)) (seq 0 (ncols A)))
                  (seq 0 (nrows A)) in
  match labels with
  | None => Ok {| index := RangeIndex (nrows A);
                  columns := RangeIndex (ncols A); rows := body |}
  | Some ls =>
      if (length ls =? ncols A)%nat then
        Ok {| index := RangeIndex (nrows A); columns := ls; rows := body |}
      else Raise (ValueError "Shape of passed values does not match the columns")
  end.

(** ** [social_burden.py]: class [SocialBurdenCalculator] *)

Section Calculator.
Context {T : Type} `{ServiceLevelsLike T}.

Record SocialBurdenCalculator : Type := mkCalculator {
  population_info : PopulationGroupInfo.t;
  facility_info : FacilityInfo.t;
  service_levels : T;
  I_matrix : option ndarray;
  G_matrix : option ndarray;
  E_matrix : option ndarray;
  B_matrix : option ndarray
}.

(** [__init__] *)
Definition new (population_info : PopulationGroupInfo.t)
    (facility_info : FacilityInfo.t) (service_levels : T)
  : SocialBurdenCalculator :=
  {| population_info := population_info;
     facility_info := facility_info;
     service_levels := service_levels;
     I_matrix := None; G_matrix := None;
     E_matrix := None; B_matrix := None |}.

Definition set_I_matrix (A : ndarray) : method SocialBurdenCalculator unit :=
  mmodify (fun self =>
    {| population_info := population_info self;
       facility_info := facility_info self;
       service_levels := service_levels self;
       I_matrix := Some A; G_matrix := G_matrix self;
       E_matrix := E_matrix self; B_matrix := B_matrix self |}).

Definition set_G_matrix (A : ndarray) : method SocialBurdenCalculator unit :=
  mmodify (fun self =>
    {| population_info := population_info self;
       facility_info := facility_info self;
       service_levels := service_levels self;
       I_matrix := I_matrix self; G_matrix := Some A;
       E_matrix := E_matrix self; B_matrix := B_matrix self |}).

Definition set_E_matrix (A : ndarray) : method SocialBurdenCalculator unit :=
  mmodify (fun self =>
    {| population_info := population_info self;
       facility_info := facility_info self;
       service_levels := service_levels self;
       I_matrix := I_matrix self; G_matrix := G_matrix self;
       E_matrix := Some A; B_matrix := B_matrix self |}).

Definition set_B_matrix (A : ndarray) : method SocialBurdenCalculator unit :=
  mmodify (fun self =>
    {| population_info := population_info self;
       facility_info := facility_info self;
       service_levels := service_levels self;
       I_matrix := I_matrix self; G_matrix := G_matrix self;
       E_matrix := E_matrix self; B_matrix := Some A |}).

(** Use of a matrix attribute as an array operand; [None] is not one. *)
Definition operand (field : SocialBurdenCalculator -> option ndarray)
  : method SocialBurdenCalculator ndarray :=
  fun self =>
    match field self with
    | Some A => (Ok A, self)
    | None => (Raise (TypeError "unsupported operand type: 'NoneType'"), self)
    end.

(** [np.radians(pop_gdf[["CBG_longitude", "CBG_latitude"]].values)] *)
Definition pop_coords (self : SocialBurdenCalculator) : list (R * R) :=
  map (fun r => (Numpy.radians (PopulationGroupInfo.CBG_longitude r),
                 Numpy.radians (PopulationGroupInfo.CBG_latitude r)))
      (PopulationGroupInfo.gdf_layer (population_info self)).

(** [np.radians(fac_gdf[["Facility_longitude", "Facility_latitude"]].values)] *)
Definition fac_coords (self : SocialBurdenCalculator) : list (R * R) :=
  map (fun r => (Numpy.radians (FacilityInfo.Facility_longitude r),
                 Numpy.radians (FacilityInfo.Facility_latitude r)))
      (FacilityInfo.gdf_layer (facility_info self)).

(** [fac_gdf["Facility Type"].values] *)
Definition fac_types (self : SocialBurdenCalculator) : list cell :=
  map FacilityInfo.Facility_Type (FacilityInfo.gdf_layer (facility_info self)).

(** [haversine_distances(pop_coords, fac_coords) * 6371000] *)
Definition D_matrix (self : SocialBurdenCalculator) : result ndarray :=
  (angles <- Sklearn.haversine_distances (pop_coords self) (fac_coords self) ;;
   Ok (Numpy.scale 6371000%R angles))%result.

Definition compute_pairwise_effort : method SocialBurdenCalculator unit :=
  (self <- mget ;;
   D <- mlift (D_matrix self) ;;
   J_l_values <- mlift (comprehension
                   (get_zero_distance_effort (service_levels self)) (fac_types self)) ;;
   M_l_values <- mlift (comprehension
                   (get_effort_per_foot (service_levels self)) (fac_types self)) ;;
   DM <- mlift (M <- Numpy.as_floats M_l_values ;;
                Numpy.broadcast_row F64.mul D M)%result ;;
   I <- mlift (J <- Numpy.as_floats J_l_values ;;
               Numpy.broadcast_row (fun dm j => F64.add j dm) DM J)%result ;;
   set_I_matrix I)%method.

Definition compute_service_accessibility : method SocialBurdenCalculator unit :=
  (self <- mget ;;
   (match I_matrix self with
    | None => compute_pairwise_effort
    | Some _ => mret tt
    end) ;;
   I <- operand I_matrix ;;
   set_G_matrix (Numpy.where_positive_reciprocal I))%method.

(** [np.array([self.service_levels[ft].values for ft in fac_types]).T] *)
Definition S_lm (self : SocialBurdenCalculator) : result ndarray :=
  (first <- subscript (service_levels self)
              (FacilityInfo.Facility_Type (FacilityInfo.first_row (facility_info self))) ;;
   more <- comprehension (subscript (service_levels self))
             (map FacilityInfo.Facility_Type
                  (FacilityInfo.more_rows (facility_info self))) ;;
   stacked <- Numpy.array (s_values first) (map s_values more) ;;
   Ok (Numpy.T stacked))%result.

(** [np.dot(self.G_matrix, S_lm)], before the zeros are replaced. *)
Definition weighted_service (G S : ndarray) : result ndarray := Numpy.dot G S.

Definition compute_effort_matrix : method SocialBurdenCalculator unit :=
  (self <- mget ;;
   (match G_matrix self with
    | None => compute_service_accessibility
    | Some _ => mret tt
    end) ;;
   self' <- mget ;;
   S <- mlift (S_lm self') ;;
   G <- operand G_matrix ;;
   W <- mlift (weighted_service G S) ;;
   set_E_matrix (Numpy.reciprocal (Numpy.zeros_to_nan W)) ;;
   E <- operand E_matrix ;;
   set_E_matrix (Numpy.nan_to_num 1e6%R E))%method.

Definition compute_social_burden (ability_column : string)
  : method SocialBurdenCalculator DataFrame :=
  (self <- mget ;;
   (match E_matrix self with
    | None => compute_effort_matrix
    | Some _ => mret tt
    end) ;;
   self' <- mget ;;
   pop_gdf <- mlift (PopulationGroupInfo.merge_data (population_info self') ability_column) ;;
   ability <- mlift (Pandas.getitem (Str ability_column) pop_gdf) ;;
   E <- operand E_matrix ;;
   B <- mlift (ability_values <- Numpy.as_floats (s_values ability) ;;
               Numpy.broadcast_column F64.div E ability_values)%result ;;
   set_B_matrix B ;;
   labels <- mlift (index_of (service_levels self')) ;;
   mlift (frame_of_array B (Some labels)))%method.

Definition not_computed : exn := ValueError "Social Burden has not been computed yet.".

(** [save_results]: the disk is the second component of the state. *)
Definition save_results (output_path : string)
  : method (SocialBurdenCalculator * Disk) unit :=
  fun '(self, disk) =>
    match B_matrix self with
    | None => (Raise not_computed, (self, disk))
    | Some B =>
        match (frame <- frame_of_array B None ;; to_csv frame output_path disk)%result with
        | Ok disk' => (Ok tt, (self, disk'))
        | Raise e => (Raise e, (self, disk))
        end
    end.

End Calculator.

(** ** Vocabulary of the statements *)

Section Vocabulary.
Context {T : Type} `{ServiceLevelsLike T}.
Implicit Types self : @SocialBurdenCalculator T.

(** The collaborators are never reassigned. *)
Definition same_inputs self self' : Prop :=
  population_info self' = population_info self /\
  facility_info self' = facility_info self /\
  service_levels self' = service_levels self.

(** A matrix that was cached is still the same array. *)
Definition kept (field : @SocialBurdenCalculator T -> option ndarray)
    self self' : Prop :=
  forall A, field self = Some A -> field self' = Some A.

(** Number of population groups and of facilities. *)
Definition N_groups self : nat :=
  length (PopulationGroupInfo.gdf_layer (population_info self)).
Definition L_facilities self : nat :=
  length (FacilityInfo.gdf_layer (facility_info self)).

(** The real number held by item (n, l) of the distance matrix. *)
Definition D_item self (n l : nat) : R :=
  (Sklearn.haversine (nth n (pop_coords self) (0, 0))
                     (nth l (fac_coords self) (0, 0)) * 6371000)%R.

(** The type of facility [l]. *)
Definition facility_type_at self (l : nat) : cell :=
  nth l (fac_types self) (Num NaN).

(** The step every later stage starts with: compute the earlier stage
    unless its matrix is cached. *)
Definition ensure (field : @SocialBurdenCalculator T -> option ndarray)
    (stage : method (@SocialBurdenCalculator T) unit)
  : method (@SocialBurdenCalculator T) unit :=
  fun self =>
    match field self with
    | None => stage self
    | Some _ => (Ok tt, self)
    end.

(** The matrix S of the specification, L by M: row [l] is the
    service-level row of the type of facility [l], as the object gives
    it.  It is the array [S_lm] stacks, before the transposition. *)
Definition service_level_rows self : result ndarray :=
  (first <- subscript (service_levels self)
              (FacilityInfo.Facility_Type (FacilityInfo.first_row (facility_info self))) ;;
   more <- comprehension (subscript (service_levels self))
             (map FacilityInfo.Facility_Type
                  (FacilityInfo.more_rows (facility_info self))) ;;
   Numpy.array (s_values first) (map s_values more))%result.

(** The weighted service availability of the specification,
    [W(n,m) = sum over l of G(n,l) * S(l,m)]. *)
Definition weighted_availability (G S : ndarray) (n m : nat) : float64 :=
  Numpy.sum_upto (ncols G) (fun l => F64.mul (item G n l) (item S l m)).

(** The state a fresh calculator reaches when stages 1 to 3 have
    stored [I], [G] and [E]. *)
Definition after_stage3 self (I G E : ndarray) : @SocialBurdenCalculator T :=
  snd (set_E_matrix E (snd (set_G_matrix G (snd (set_I_matrix I self))))).
End Vocabulary.

(** [x] is a finite number within [tol] of [v]. *)
Definition within (tol : R) (x : float64) (v : R) : Prop :=
  exists r, x = Fin r /\ (Rabs (r - v) <= tol)%R.

(** The great-circle angle between two points given as (longitude,
    latitude) in degrees: the haversine formula with each coordinate in
    its own role. *)
Definition great_circle_angle (p q : R * R) : R :=
  Sklearn.haversine (Numpy.radians (snd p), Numpy.radians (fst p))
                    (Numpy.radians (snd q), Numpy.radians (fst q)).

(** ** The end-to-end scenario of the specification

    Two population groups at (0, 0) and (0, 1) degrees (longitude,
    latitude), one facility of type "Library" at (0, 0), the service-level
    table with the single row Library: J = 0.4, M = 0.05, General = 1.0,
    and ability scores 2 and 1 in the column "Ability". *)
Module Scenario.

Definition csv : DataFrame :=
  {| index := RangeIndex 1;
     columns := [Str "Facility Type"; Str "Zero Distance Effort";
                 Str "Effort Per Foot"; Str "General"];
     rows := [[Str "Library"; Num (Fin 0.4%R); Num (Fin 0.05%R); Num (Fin 1%R)]] |}.

(** The attributes the extraction statements of [ServiceLevels.__init__]
    give on [csv]. *)
Definition levels : ServiceLevels.t :=
  {| ServiceLevels.sevice_levels_df := Some csv;
     ServiceLevels.service_levels_df := None;
     ServiceLevels.J_l := Some [(Str "Library", Num (Fin 0.4%R))];
     ServiceLevels.M_l := Some [(Str "Library", Num (Fin 0.05%R))];
     ServiceLevels.service_levels :=
       Some {| index := [Str "General"]; columns := [Str "Library"];
               rows := [[Num (Fin 1%R)]] |} |}.

Definition provider : LevelTable.t := {| LevelTable.levels := levels |}.

(** The merged frame of the two groups with ability scores [a1], [a2]. *)
Definition merged (a1 a2 : float64) : DataFrame :=
  {| index := RangeIndex 2;
     columns := [Str "GISJOIN"; Str "CBG_latitude"; Str "CBG_longitude"; Str "Ability"];
     rows := [[Str "G1"; Num (Fin 0%R); Num (Fin 0%R); Num a1];
              [Str "G2"; Num (Fin 1%R); Num (Fin 0%R); Num a2]] |}.

Definition population (a1 a2 : float64) : PopulationGroupInfo.t :=
  {| PopulationGroupInfo.gdf_layer :=
       [ {| PopulationGroupInfo.CBG_longitude := 0%R;
            PopulationGroupInfo.CBG_latitude := 0%R |};
         {| PopulationGroupInfo.CBG_longitude := 0%R;
            PopulationGroupInfo.CBG_latitude := 1%R |} ];
     PopulationGroupInfo.merge_data := fun column =>
       if String.eqb column "Ability" then Ok (merged a1 a2)
       else Raise (KeyError column) |}.

Definition facilities : FacilityInfo.t :=
  {| FacilityInfo.first_row :=
       {| FacilityInfo.Facility_longitude := 0%R;
          FacilityInfo.Facility_latitude := 0%R;
          FacilityInfo.Facility_Type := Str "Library" |};
     FacilityInfo.more_rows := [] |}.

(** A fresh calculator on these inputs. *)
Definition calculator (a1 a2 : float64) : SocialBurdenCalculator :=
  new (population a1 a2) facilities provider.

(** The same calculator with an effort matrix already cached. *)
Definition cached_effort : ndarray :=
  {| nrows := 2; ncols := 1; item := fun _ _ => Fin 0.4%R |}.


(** Item (1, 0) of the distance matrix: one degree of arc, in metres. *)
Definition d2 : R := (PI / 180 * 6371000)%R.
(** Item (1, 0) of [I], and of [E] and of [B] for ability 1. *)
Definition i2 : R := (0.4 + d2 * 0.05)%R.

(** The array [S_lm] of the scenario: the stacked rows, transposed. *)
Definition S : ndarray :=
  Numpy.T {| nrows := 1; ncols := 1;
             item := fun i j => nth j (nth i [[Fin 1%R]] []) NaN |}.

(** The values the specification lists for the scenario, with the
    second item of [E] and of [B] left as the parameter [e2], each
    approximate value taken to half a unit of its last printed digit
    and the tolerance [tol] on [e2]:
    D = [0, ~111195], I = [0.4, 0.4 + 5559.75], G = [2.5, ~0.00018],
    W = G, E = [0.4, ~e2], B = [0.2, ~e2]. *)
Definition expected (e2 tol : R) (D I G W E B : ndarray) : Prop :=
  (item D 0 0 = Fin 0%R /\ within 0.5%R (item D 1 0) 111195%R) /\
  (item I 0 0 = Fin 0.4%R /\ within 0.005%R (item I 1 0) (0.4 + 5559.75)%R) /\
  (item G 0 0 = Fin 2.5%R /\ within 0.000005%R (item G 1 0) 0.00018%R) /\
  (item W 0 0 = item G 0 0 /\ item W 1 0 = item G 1 0) /\
  (item E 0 0 = Fin 0.4%R /\ within tol (item E 1 0) e2) /\
  (item B 0 0 = Fin 0.2%R /\ within tol (item B 1 0) e2).

(** What a run of [compute_social_burden] on the fresh calculator
    produces: the returned frame, the four cached matrices and the two
    local arrays [D_matrix] and [weighted_service]. *)
Definition produces (a1 a2 : float64) (D I G W E B : ndarray) : Prop :=
  let self := calculator a1 a2 in
  exists frame self',
    compute_social_burden "Ability" self = (Ok frame, self') /\
    D_matrix self = Ok D /\
    I_matrix self' = Some I /\ G_matrix self' = Some G /\
    weighted_service G S = Ok W /\
    E_matrix self' = Some E /\ B_matrix self' = Some B /\
    index frame = RangeIndex 2 /\ columns frame = [Str "General"] /\
    rows frame = [[Num (item B 0 0)]; [Num (item B 1 0)]].

End Scenario.

(** ** Two facilities, two categories

    One population group and two facilities, a clinic and a hospital, all
    at (0, 0).  Neither facility type offers the category "Food"; both
    offer "Health" at level 1. *)
Module TwoCategories.

Definition csv : DataFrame :=
  {| index := RangeIndex 2;
     columns := [Str "Facility Type"; Str "Zero Distance Effort";
                 Str "Effort Per Foot"; Str "Food"; Str "Health"];
     rows := [[Str "Clinic"; Num (Fin 0.4%R); Num (Fin 0.05%R);
               Num (Fin 0%R); Num (Fin 1%R)];
              [Str "Hospital"; Num (Fin 0.4%R); Num (Fin 0.05%R);
               Num (Fin 0%R); Num (Fin 1%R)]] |}.

Definition levels : ServiceLevels.t :=
  {| ServiceLevels.sevice_levels_df := Some csv;
     ServiceLevels.service_levels_df := None;
     ServiceLevels.J_l := Some [(Str "Clinic", Num (Fin 0.4%R));
                                (Str "Hospital", Num (Fin 0.4%R))];
     ServiceLevels.M_l := Some [(Str "Clinic", Num (Fin 0.05%R));
                                (Str "Hospital", Num (Fin 0.05%R))];
     ServiceLevels.service_levels :=
       Some {| index := [Str "Food"; Str "Health"];
               columns := [Str "Clinic"; Str "Hospital"];
               rows := [[Num (Fin 0%R); Num (Fin 0%R)];
                        [Num (Fin 1%R); Num (Fin 1%R)]] |} |}.

Definition provider : LevelTable.t := {| LevelTable.levels := levels |}.

Definition population : PopulationGroupInfo.t :=
  {| PopulationGroupInfo.gdf_layer :=
       [ {| PopulationGroupInfo.CBG_longitude := 0%R;
            PopulationGroupInfo.CBG_latitude := 0%R |} ];
     PopulationGroupInfo.merge_data := fun column => Raise (KeyError column) |}.

Definition facilities : FacilityInfo.t :=
  {| FacilityInfo.first_row :=
       {| FacilityInfo.Facility_longitude := 0%R;
          FacilityInfo.Facility_latitude := 0%R;
          FacilityInfo.Facility_Type := Str "Clinic" |};
     FacilityInfo.more_rows :=
       [ {| FacilityInfo.Facility_longitude := 0%R;
            FacilityInfo.Facility_latitude := 0%R;
            FacilityInfo.Facility_Type := Str "Hospital" |} ] |}.

Definition calculator : SocialBurdenCalculator :=
  new population facilities provider.

(** The rows the code stacks, one per facility over the categories. *)
Definition stacked : ndarray :=
  {| nrows := 2; ncols := 2;
     item := fun i j => nth j (nth i [[Fin 0%R; Fin 1%R]; [Fin 0%R; Fin 1%R]] []) NaN |}.

End TwoCategories.

(** ** Two facilities, one category

    The scenario with a second library at the same place. *)
Module TwoLibraries.

Definition facilities : FacilityInfo.t :=
  {| FacilityInfo.first_row :=
       {| FacilityInfo.Facility_longitude := 0%R;
          FacilityInfo.Facility_latitude := 0%R;
          FacilityInfo.Facility_Type := Str "Library" |};
     FacilityInfo.more_rows :=
       [ {| FacilityInfo.Facility_longitude := 0%R;
            FacilityInfo.Facility_latitude := 0%R;
            FacilityInfo.Facility_Type := Str "Library" |} ] |}.

Definition calculator : SocialBurdenCalculator :=
  new (Scenario.population (Fin 2%R) (Fin 1%R)) facilities Scenario.provider.

Definition stacked : ndarray :=
  {| nrows := 2; ncols := 1;
     item := fun i j => nth j (nth i [[Fin 1%R]; [Fin 1%R]] []) NaN |}.

End TwoLibraries.

(** ** Two points on the meridian of 90 degrees east

    A population group at longitude 90, latitude 45 and a facility at
    longitude 90, latitude 0. *)
Module Meridian.

Definition population : PopulationGroupInfo.t :=
  {| PopulationGroupInfo.gdf_layer :=
       [ {| PopulationGroupInfo.CBG_longitude := 90%R;
            PopulationGroupInfo.CBG_latitude := 45%R |} ];
     PopulationGroupInfo.merge_data := fun column => Raise (KeyError column) |}.

Definition facilities : FacilityInfo.t :=
  {| FacilityInfo.first_row :=
       {| FacilityInfo.Facility_longitude := 90%R;
          FacilityInfo.Facility_latitude := 0%R;
          FacilityInfo.Facility_Type := Str "Library" |};
     FacilityInfo.more_rows := [] |}.

Definition calculator : SocialBurdenCalculator :=
  new population facilities Scenario.provider.

End Meridian.

(** ** Vocabulary for dictionaries *)

(** The value of the last pair of [kvs] whose key equals [k]. *)
Definition last_value (k : cell) (kvs : list (cell * cell)) : option cell :=
  fold_left (fun acc kv => if cell_eqb (fst kv) k then Some (snd kv) else acc)
            kvs None.

(** ** A calculator without population groups *)
Module EmptyPopulation.

Definition population : PopulationGroupInfo.t :=
  {| PopulationGroupInfo.gdf_layer := [];
     PopulationGroupInfo.merge_data := fun column => Raise (KeyError column) |}.

Definition calculator : SocialBurdenCalculator :=
  new population Scenario.facilities Scenario.provider.

End EmptyPopulation.

(** ** A calculator given an instance of the class [ServiceLevels] *)
Module PackageLevels.

(** The scenario's calculator with the instance itself as
    [service_levels], and an accessibility matrix already cached. *)
Definition calculator : @SocialBurdenCalculator ServiceLevels.t :=
  {| population_info := Scenario.population (Fin 2%R) (Fin 1%R);
     facility_info := Scenario.facilities;
     service_levels := Scenario.levels;
     I_matrix := None;
     G_matrix := Some Scenario.cached_effort;
     E_matrix := None; B_matrix := None |}.

End PackageLevels.

(** ** The scenario with cached matrices *)
Module Cached.

(** The scenario's calculator with [I_matrix] cached. *)
Definition with_I : SocialBurdenCalculator :=
  snd (set_I_matrix Scenario.cached_effort
         (Scenario.calculator (Fin 2%R) (Fin 1%R))).

(** The scenario's calculator with [G_matrix] cached. *)
Definition with_G : SocialBurdenCalculator :=
  snd (set_G_matrix Scenario.cached_effort
         (Scenario.calculator (Fin 2%R) (Fin 1%R))).

(** An array of the given shape whose items are all 0.4. *)
Definition constant (r c : nat) : ndarray :=
  {| nrows := r; ncols := c; item := fun _ _ => Fin 0.4%R |}.

(** The scenario's calculator with the effort matrix [E] cached. *)
Definition with_E (E : ndarray) : SocialBurdenCalculator :=
  snd (set_E_matrix E (Scenario.calculator (Fin 2%R) (Fin 1%R))).

(** The scenario's calculator with a burden matrix stored. *)
Definition with_B : SocialBurdenCalculator :=
  snd (set_B_matrix Scenario.cached_effort
         (Scenario.calculator (Fin 2%R) (Fin 1%R))).

End Cached.

(** ** A table with a repeated facility type *)
Module RepeatedType.

Definition csv : DataFrame :=
  {| index := RangeIndex 2;
     columns := [Str "Facility Type"; Str "Zero Distance Effort";
                 Str "Effort Per Foot"; Str "Food"; Str "Health"];
     rows := [[Str "Hospital"; Num (Fin 0.4%R); Num (Fin 0.05%R);
               Num (Fin 0%R); Num (Fin 1%R)];
              [Str "Hospital"; Num (Fin 0.5%R); Num (Fin 0.06%R);
               Num (Fin 1%R); Num (Fin 0.5%R)]] |}.

(** [csv.set_index("Facility Type")] *)
Definition keyed : DataFrame :=
  {| index := [Str "Hospital"; Str "Hospital"];
     columns := [Str "Zero Distance Effort"; Str "Effort Per Foot";
                 Str "Food"; Str "Health"];
     rows := [[Num (Fin 0.4%R); Num (Fin 0.05%R); Num (Fin 0%R); Num (Fin 1%R)];
              [Num (Fin 0.5%R); Num (Fin 0.06%R); Num (Fin 1%R); Num (Fin 0.5%R)]] |}.

(** The attributes the extraction statements of [ServiceLevels.__init__]
    give on [csv]. *)
Definition levels : ServiceLevels.t :=
  {| ServiceLevels.sevice_levels_df := Some csv;
     ServiceLevels.service_levels_df := None;
     ServiceLevels.J_l := Some [(Str "Hospital", Num (Fin 0.5%R))];
     ServiceLevels.M_l := Some [(Str "Hospital", Num (Fin 0.06%R))];
     ServiceLevels.service_levels :=
       Some {| index := [Str "Food"; Str "Health"];
               columns := [Str "Hospital"; Str "Hospital"];
               rows := [[Num (Fin 0%R); Num (Fin 1%R)];
                        [Num (Fin 1%R); Num (Fin 0.5%R)]] |} |}.

End RepeatedType.

(** ** A table with an infinite zero-distance effort *)
Module InfiniteEffort.

(** The scenario's table with [inf] as the zero-distance effort. *)
Definition csv : DataFrame :=
  {| index := RangeIndex 1;
     columns := [Str "Facility Type"; Str "Zero Distance Effort";
                 Str "Effort Per Foot"; Str "General"];
     rows := [[Str "Library"; Num PInf; Num (Fin 0.05%R); Num (Fin 1%R)]] |}.

Definition levels : ServiceLevels.t :=
  {| ServiceLevels.sevice_levels_df := Some csv;
     ServiceLevels.service_levels_df := None;
     ServiceLevels.J_l := Some [(Str "Library", Num PInf)];
     ServiceLevels.M_l := Some [(Str "Library", Num (Fin 0.05%R))];
     ServiceLevels.service_levels :=
       Some {| index := [Str "General"]; columns := [Str "Library"];
               rows := [[Num (Fin 1%R)]] |} |}.

Definition provider : LevelTable.t := {| LevelTable.levels := levels |}.

(** The scenario's calculator on this table. *)
Definition calculator : SocialBurdenCalculator :=
  new (Scenario.population (Fin 2%R) (Fin 1%R)) Scenario.facilities provider.

End InfiniteEffort.

(** ** [load_layers.py]: classes [PopulationGroupInfo] and [FacilityInfo]

    The two classes read a shapefile with geopandas.  What geopandas and
    shapely compute is a parameter of the model: the type [geom] of a
    geometry, its [centroid], its validity and the coordinates of a
    point, and the function [read_file].  A [GeoDataFrame] is a frame of
    attribute columns together with its [geometry] column, if it has
    one.  Logging is left out. *)

(** An instance attribute: never assigned ([None]), assigned Python's
    [None] ([Some None]) or assigned a value. *)
Definition slot (A : Type) : Type := option (option A).

Module LoadLayers.

Record GeoDataFrame (geom : Type) : Type := mkGeo {
  attributes : DataFrame;
  geometry : option (list geom)
}.
Arguments mkGeo {geom} attributes geometry.
Arguments attributes {geom} _.
Arguments geometry {geom} _.

(** What geopandas and shapely supply: the centroid of a geometry, its
    validity, the coordinates of a point, and [gpd.read_file]. *)
Class Geopandas (geom : Type) : Type := {
  centroid : geom -> geom;
  is_valid : geom -> bool;
  geom_x : geom -> float64;
  geom_y : geom -> float64;
  read_file : string -> result (GeoDataFrame geom)
}.

Section Frames.
Context {geom : Type} `{Geopandas geom}.

(** [gdf.columns] *)
Definition gdf_columns (gdf : GeoDataFrame geom) : list cell :=
  columns (attributes gdf) ++
  match geometry gdf with Some _ => [Str "geometry"] | None => [] end.

(** [name in gdf.columns] *)
Definition has_column (name : string) (cols : list cell) : bool :=
  match Pandas.position (Str name) cols with Some _ => true | None => false end.

(** [gdf.empty]: no row or no column. *)
Definition empty (gdf : GeoDataFrame geom) : bool :=
  (length (index (attributes gdf)) =? 0)%nat || (length (gdf_columns gdf) =? 0)%nat.

Fixpoint replace_nth {A} (n : nat) (x : A) (l : list A) : list A :=
  match n, l with
  | _, [] => []
  | O, _ :: l' => x :: l'
  | S n', y :: l' => y :: replace_nth n' x l'
  end.

(** [df[name] = values]: the column is overwritten if it exists and
    appended otherwise; the values must be one per row. *)
Definition setitem (name : string) (values : list cell) (df : DataFrame)
  : result DataFrame :=
  if (length values =? length (index df))%nat then
    match Pandas.position (Str name) (columns df) with
    | Some p =>
        Ok {| index := index df; columns := columns df;
              rows := map (fun '(r, v) => replace_nth p v r)
                          (combine (rows df) values) |}
    | None =>
        Ok {| index := index df; columns := columns df ++ [Str name];
              rows := map (fun '(r, v) => r ++ [v]) (combine (rows df) values) |}
    end
  else Raise (ValueError "Length of values does not match length of index").

(** The statements both [load_layer] methods share: read the file,
    replace each geometry by its centroid and add the two coordinate
    columns. *)
Definition read_centroids (shp_path lat_name lon_name : string)
  : result (GeoDataFrame geom) :=
  (gdf <- read_file shp_path ;;
   shapes <- match geometry gdf with
             | Some gs => Ok gs
             | None => Raise (KeyError "geometry")
             end ;;
   let points := map centroid shapes in
   with_lat <- setitem lat_name (map (fun g => Num (geom_y g)) points)
                 (attributes gdf) ;;
   with_lon <- setitem lon_name (map (fun g => Num (geom_x g)) points) with_lat ;;
   Ok {| attributes := with_lon; geometry := Some points |})%result.

(** [validate_layer(self, gdf)], the same in both classes. *)
Definition validate_layer (gdf : GeoDataFrame geom) : bool :=
  if empty gdf then false
  else
    match geometry gdf with
    | None => false
    | Some gs =>
        if negb (has_column "GISJOIN" (gdf_columns gdf)) then false
        else if existsb (fun g => negb (is_valid g)) gs then false
        else true
    end.

Definition validation_failed : exn := ValueError "Shapefile validation failed.".

(** [left.merge(right[["GISJOIN", column]], on="GISJOIN", how="left")]
    for text keys: every row of [left] in its order, once per row of
    [right] with the same key, and once with NaN when there is none.  A
    column of [left] named like [column] gets the suffix [_x] and the
    new one [_y]. *)
Definition matches (key : cell) (right_keys right_values : list cell) : list cell :=
  map snd (filter (fun kv => cell_eqb (fst kv) key)
                  (combine right_keys right_values)).

Definition merge_left (left : GeoDataFrame geom) (right : DataFrame) (column : string)
  : result (GeoDataFrame geom) :=
  match Pandas.position (Str "GISJOIN") (columns (attributes left)),
        Pandas.position (Str "GISJOIN") (columns right),
        Pandas.position (Str column) (columns right) with
  | Some pl, Some pk, Some pv =>
      if String.eqb column "GISJOIN" then
        Raise (ValueError "The column label 'GISJOIN' is not unique.")
      else
        let right_keys := Pandas.column_cells pk right in
        let right_values := Pandas.column_cells pv right in
        let shapes := default [] (geometry left) in
        let joined :=
          flat_map (fun '(i, r) =>
                      let found := matches (nth pl r (Num NaN)) right_keys right_values in
                      map (fun v => (r ++ [v], i))
                          (match found with [] => [Num NaN] | _ => found end))
                   (combine (seq 0 (length (rows (attributes left))))
                            (rows (attributes left))) in
        let clash := has_column column (columns (attributes left)) in
        let left_columns :=
          map (fun c => if clash && cell_eqb c (Str column)
                        then Str (column ++ "_x") else c)
              (columns (attributes left)) in
        let new_column := if clash then Str (column ++ "_y") else Str column in
        Ok {| attributes :=
                {| index := RangeIndex (length joined);
                   columns := left_columns ++ [new_column];
                   rows := map fst joined |};
              geometry :=
                match geometry left with
                | None => None
                | Some gs =>
                    Some (flat_map (fun ig =>
                            match nth_error gs (snd ig) with
                            | Some g => [g] | None => [] end) joined)
                end |}
  | None, _, _ => Raise (KeyError "GISJOIN")
  | _, None, _ => Raise (KeyError "GISJOIN")
  | _, _, None => Raise (KeyError column)
  end.

End Frames.

Module PopulationGroupInfo.
Section Class.
Context {geom : Type} `{Geopandas geom}.

Record t : Type := mk {
  shp_path : string;
  csv_path : string;
  layer : slot (GeoDataFrame geom);
  ability_data : slot DataFrame;
  merged_data : slot (GeoDataFrame geom);
  gdf_layer : slot (GeoDataFrame geom)
}.

(** Reading an attribute; one that was never assigned does not exist. *)
Definition read_attr {A} (name : string) (field : t -> slot A)
  : method t (option A) :=
  fun self =>
    match field self with
    | Some v => (Ok v, self)
    | None => (Raise (AttributeError name), self)
    end.

Definition set_ability_data (df : DataFrame) : method t unit :=
  mmodify (fun self =>
    {| shp_path := shp_path self; csv_path := csv_path self;
       layer := layer self; ability_data := Some (Some df);
       merged_data := merged_data self; gdf_layer := gdf_layer self |}).

Definition set_gdf_layer (gdf : GeoDataFrame geom) : method t unit :=
  mmodify (fun self =>
    {| shp_path := shp_path self; csv_path := csv_path self;
       layer := layer self; ability_data := ability_data self;
       merged_data := merged_data self; gdf_layer := Some (Some gdf) |}).

Definition set_merged_data (gdf : GeoDataFrame geom) : method t unit :=
  mmodify (fun self =>
    {| shp_path := shp_path self; csv_path := csv_path self;
       layer := layer self; ability_data := ability_data self;
       merged_data := Some (Some gdf); gdf_layer := gdf_layer self |}).

(** [load_ability_data]; its handler logs and raises again. *)
Definition load_ability_data (fs : FileSystem) : method t unit :=
  (self <- mget ;;
   df <- mlift (read_csv fs (csv_path self)) ;;
   set_ability_data df ;;
   if has_column "GISJOIN" (columns df) then mret tt
   else mraise (ValueError "The CSV file must contain a 'GISJOIN' column."))%method.

(** [__init__]: the four assignments, then [load_ability_data]. *)
Definition init (fs : FileSystem) (shp csv : string) : result unit * t :=
  load_ability_data fs
    {| shp_path := shp; csv_path := csv; layer := Some None;
       ability_data := Some None; merged_data := Some None; gdf_layer := None |}.

(** The expression [PopulationGroupInfo(shp, csv)]. *)
Definition new (fs : FileSystem) (shp csv : string) : result t :=
  match init fs shp csv with
  | (Ok _, self) => Ok self
  | (Raise e, _) => Raise e
  end.

(** [load_layer]: the test of [self.gdf_layer] stands before the [try]. *)
Definition load_layer : method t (option (GeoDataFrame geom)) :=
  (cached <- read_attr "gdf_layer" gdf_layer ;;
   match cached with
   | Some _ => read_attr "layer" layer
   | None =>
       self <- mget ;;
       gdf <- mlift (read_centroids (shp_path self) "CBG_latitude" "CBG_longitude") ;;
       if validate_layer gdf then (set_gdf_layer gdf ;; mret (Some gdf))
       else mraise validation_failed
   end)%method.

(** An attribute access on a value that may be Python's [None]. *)
Definition of_object {A} (attribute : string) (v : option A) : method t A :=
  match v with
  | Some a => mret a
  | None => mraise (AttributeError attribute)
  end.

(** [merge_data(column)] *)
Definition merge_data (column : string) : method t (option (GeoDataFrame geom)) :=
  (merged <- read_attr "merged_data" merged_data ;;
   match merged with
   | Some m => mret (Some m)
   | None =>
       l <- read_attr "layer" layer ;;
       (match l with
        | None => (load_layer ;; mret tt)
        | Some _ => mret tt
        end) ;;
       a <- read_attr "ability_data" ability_data ;;
       ability <- of_object "columns" a ;;
       if negb (has_column "GISJOIN" (columns ability)) then
         mraise (ValueError "GISJOIN column is missing in the CSV data.")
       else
         l' <- read_attr "layer" layer ;;
         left <- of_object "columns" l' ;;
         if negb (has_column "GISJOIN" (gdf_columns left)) then
           mraise (ValueError "GISJOIN column is missing in the shapefile.")
         else
           m <- mlift (merge_left left ability column) ;;
           set_merged_data m ;;
           mret (Some m)
   end)%method.

End Class.
End PopulationGroupInfo.

Module FacilityInfo.
Section Class.
Context {geom : Type} `{Geopandas geom}.

Record t : Type := mk {
  shp_path : string;
  gdf_layer : slot (GeoDataFrame geom)
}.

Definition read_attr {A} (name : string) (field : t -> slot A)
  : method t (option A) :=
  fun self =>
    match field self with
    | Some v => (Ok v, self)
    | None => (Raise (AttributeError name), self)
    end.

Definition set_gdf_layer (gdf : GeoDataFrame geom) : method t unit :=
  mmodify (fun self =>
    {| shp_path := shp_path self; gdf_layer := Some (Some gdf) |}).

(** [load_layer] *)
Definition load_layer : method t (option (GeoDataFrame geom)) :=
  (cached <- read_attr "gdf_layer" gdf_layer ;;
   match cached with
   | Some gdf => mret (Some gdf)
   | None =>
       self <- mget ;;
       gdf <- mlift (read_centroids (shp_path self)
                       "Facility_latitude" "Facility_longitude") ;;
       if validate_layer gdf then (set_gdf_layer gdf ;; mret (Some gdf))
       else mraise validation_failed
   end)%method.

(** [__init__]: the two assignments, then [load_layer]. *)
Definition init (shp : string) : result (option (GeoDataFrame geom)) * t :=
  load_layer {| shp_path := shp; gdf_layer := Some None |}.

(** The expression [FacilityInfo(shp)]. *)
Definition new (shp : string) : result t :=
  match init shp with
  | (Ok _, self) => Ok self
  | (Raise e, _) => Raise e
  end.

End Class.
End FacilityInfo.

End LoadLayers.

(** ** Two shapefiles and an ability table

    Geometries are taken to be points, always valid, that are their own
    centroid.  The file "groups.shp" holds two population groups, the
    file "facilities.shp" one library, and "ability.csv" the ability
    scores of the two groups. *)
Module LoaderExample.

Definition groups : LoadLayers.GeoDataFrame (R * R) :=
  {| LoadLayers.attributes :=
       {| index := RangeIndex 2; columns := [Str "GISJOIN"];
          rows := [[Str "G1"]; [Str "G2"]] |};
     LoadLayers.geometry := Some [(0, 0)%R; (0, 1)%R] |}.

Definition library : LoadLayers.GeoDataFrame (R * R) :=
  {| LoadLayers.attributes :=
       {| index := RangeIndex 1; columns := [Str "GISJOIN"; Str "Facility Type"];
          rows := [[Str "F1"; Str "Library"]] |};
     LoadLayers.geometry := Some [(0, 0)%R] |}.

(** A facility file whose attribute table has no "GISJOIN" column. *)
Definition unkeyed : LoadLayers.GeoDataFrame (R * R) :=
  {| LoadLayers.attributes :=
       {| index := RangeIndex 1; columns := [Str "Facility Type"];
          rows := [[Str "Library"]] |};
     LoadLayers.geometry := Some [(0, 0)%R] |}.

#[global] Instance points : LoadLayers.Geopandas (R * R) := {
  LoadLayers.centroid := fun g => g;
  LoadLayers.is_valid := fun _ => true;
  LoadLayers.geom_x := fun g => Fin (fst g);
  LoadLayers.geom_y := fun g => Fin (snd g);
  LoadLayers.read_file := fun path =>
    if String.eqb path "groups.shp" then Ok groups
    else if String.eqb path "facilities.shp" then Ok library
    else if String.eqb path "unkeyed.shp" then Ok unkeyed
    else Raise (FileNotFoundError path)
}.

Definition ability : DataFrame :=
  {| index := RangeIndex 2; columns := [Str "GISJOIN"; Str "Ability"];
     rows := [[Str "G1"; Num (Fin 2%R)]; [Str "G2"; Num (Fin 1%R)]] |}.

Definition disk : FileSystem := {[ "ability.csv" := ability ]}.


(** The instance [PopulationGroupInfo("groups.shp", "ability.csv")]. *)
Definition constructed : @LoadLayers.PopulationGroupInfo.t (R * R) :=
  {| LoadLayers.PopulationGroupInfo.shp_path := "groups.shp";
     LoadLayers.PopulationGroupInfo.csv_path := "ability.csv";
     LoadLayers.PopulationGroupInfo.layer := Some None;
     LoadLayers.PopulationGroupInfo.ability_data := Some (Some ability);
     LoadLayers.PopulationGroupInfo.merged_data := Some None;
     LoadLayers.PopulationGroupInfo.gdf_layer := None |}.

(** The instance [FacilityInfo("facilities.shp")]. *)
Definition facility : @LoadLayers.FacilityInfo.t (R * R) :=
  {| LoadLayers.FacilityInfo.shp_path := "facilities.shp";
     LoadLayers.FacilityInfo.gdf_layer :=
       Some (Some
         {| LoadLayers.attributes :=
              {| index := RangeIndex 1;
                 columns := [Str "GISJOIN"; Str "Facility Type";
                             Str "Facility_latitude"; Str "Facility_longitude"];
                 rows := [[Str "F1"; Str "Library"; Num (Fin (snd (0, 0)%R));
                           Num (Fin (fst (0, 0)%R))]] |};
            LoadLayers.geometry := Some [(0, 0)%R] |}) |}.


End LoaderExample.

(** * Properties *)

(** ** Arithmetic of [float64] on finite values *)

Module F64Facts.
Local Open Scope R_scope.

Lemma gtb_zero (a : R) : F64.gtb (Fin a) F64.zero = true <-> 0 < a.
Proof.
  unfold F64.gtb, F64.zero. destruct (Rlt_dec 0 a); split; intros; try easy; lra.
Qed.

Lemma gtb_zero_true (a : R) : 0 < a -> F64.gtb (Fin a) F64.zero = true.
Proof. apply gtb_zero. Qed.

Lemma gtb_zero_false (a : R) : a <= 0 -> F64.gtb (Fin a) F64.zero = false.
Proof.
  intros Ha. destruct (F64.gtb (Fin a) F64.zero) eqn:E; [|reflexivity].
  apply gtb_zero in E. lra.
Qed.

Lemma eqb_zero (a : R) : F64.eqb (Fin a) F64.zero = true <-> a = 0.
Proof.
  unfold F64.eqb, F64.zero. destruct (Req_dec_T a 0); split; intros; easy.
Qed.

Lemma eqb_zero_false (a : R) : a <> 0 -> F64.eqb (Fin a) F64.zero = false.
Proof.
  intros Ha. destruct (F64.eqb (Fin a) F64.zero) eqn:E; [|reflexivity].
  apply eqb_zero in E. contradiction.
Qed.

Lemma div_finite (a b : R) : b <> 0 -> F64.div (Fin a) (Fin b) = Fin (a / b).
Proof. intros Hb. unfold F64.div. destruct (Req_dec_T b 0); easy. Qed.



Lemma nan_to_num_finite (v : R) (x : float64) : is_finite (F64.nan_to_num v x).
Proof. destruct x; exact I. Qed.
End F64Facts.

(** ** List comprehensions *)

Lemma comprehension_ok {A B} (f : A -> result B) (g : A -> B) (xs : list A) :
  (forall x, In x xs -> f x = Ok (g x)) ->
  comprehension f xs = Ok (map g xs).
Proof.
  induction xs as [|x xs IH]; intros Hf; [reflexivity|].
  cbn. rewrite (Hf x) by (left; reflexivity).
  rewrite IH by (intros y Hy; apply Hf; right; exact Hy). reflexivity.
Qed.

Lemma as_floats_Num (xs : list float64) : Numpy.as_floats (map Num xs) = Ok xs.
Proof.
  unfold Numpy.as_floats. induction xs as [|x xs IH]; [reflexivity|].
  cbn. cbn in IH. rewrite IH. reflexivity.
Qed.

Lemma nth_map_in {A B} (f : A -> B) (xs : list A) (n : nat) (d : B) (d' : A) :
  (n < length xs)%nat -> nth n (map f xs) d = f (nth n xs d').
Proof.
  revert n. induction xs as [|x xs IH]; intros n Hn; cbn in Hn; [lia|].
  destruct n as [|n]; [reflexivity|]. cbn. apply IH. lia.
Qed.

(** ** The distance matrix *)

Module HaversineFacts.
Local Open Scope R_scope.

Lemma asin_nonneg (y : R) : 0 <= y -> 0 <= asin y.
Proof.
  intros Hy. unfold asin.
  destruct (Rle_dec y (-1)); [lra|].
  destruct (Rle_dec 1 y); [pose proof PI_RGT_0; lra|].
  assert (Hs : 0 < sqrt (1 - y²)).
  { apply sqrt_lt_R0. unfold Rsqr. nra. }
  assert (Hq : 0 <= y / sqrt (1 - y²)).
  { apply Rmult_le_pos; [exact Hy|]. left. apply Rinv_0_lt_compat. exact Hs. }
  destruct Hq as [Hq|Hq].
  - left. rewrite <- atan_0. apply atan_increasing. exact Hq.
  - rewrite <- Hq, atan_0. lra.
Qed.

Lemma haversine_nonneg (x y : R * R) : 0 <= Sklearn.haversine x y.
Proof.
  unfold Sklearn.haversine.
  pose proof (asin_nonneg _ (sqrt_pos
    (sin ((x.1 - y.1) / 2) ^ 2 + cos x.1 * cos y.1 * sin ((x.2 - y.2) / 2) ^ 2))).
  lra.
Qed.
End HaversineFacts.

Section Stage1.
Context {T : Type} `{ServiceLevelsLike T}.
Implicit Types self : @SocialBurdenCalculator T.
Local Open Scope R_scope.


Lemma length_pop_coords self : length (pop_coords self) = N_groups self.
Proof. unfold pop_coords, N_groups. apply length_map. Qed.

Lemma length_fac_coords self : length (fac_coords self) = L_facilities self.
Proof. unfold fac_coords, L_facilities. apply length_map. Qed.

Lemma length_fac_types self : length (fac_types self) = L_facilities self.
Proof. unfold fac_types, L_facilities. apply length_map. Qed.

(** The distance matrix exists as soon as there is a population group,
    and its items are the [D_item]s. *)
Lemma D_matrix_ok self :
  PopulationGroupInfo.gdf_layer (population_info self) <> [] ->
  exists D, D_matrix self = Ok D /\
    nrows D = N_groups self /\ ncols D = L_facilities self /\
    forall n l, item D n l = Fin (D_item self n l).
Proof.
  intros Hpop. unfold D_matrix, Sklearn.haversine_distances.
  rewrite <- length_pop_coords, <- length_fac_coords.
  unfold D_item.
  destruct (pop_coords self) as [|p ps] eqn:Ep.
  { unfold pop_coords in Ep. apply map_eq_nil in Ep. contradiction. }
  destruct (fac_coords self) as [|q qs] eqn:Eq.
  { unfold fac_coords, FacilityInfo.gdf_layer in Eq. discriminate. }
  cbn [rbind]. eexists. split; [reflexivity|].
  cbn [nrows ncols item Numpy.scale Numpy.map_items F64.mul]. auto.
Qed.

Lemma broadcast_row_aligned op (A : ndarray) (v : list float64) :
  ncols A = length v ->
  Numpy.broadcast_row op A v =
    Ok {| nrows := nrows A; ncols := ncols A;
          item := fun i j => op (item A i j) (nth j v NaN) |}.
Proof.
  intros E. unfold Numpy.broadcast_row. rewrite E, Nat.eqb_refl. reflexivity.
Qed.

(** Stage 1 on a state whose service-level object answers the two
    getters with numbers [Jf ft] and [Mf ft]. *)
Lemma compute_pairwise_effort_ok self (Jf Mf : cell -> float64) :
  PopulationGroupInfo.gdf_layer (population_info self) <> [] ->
  (forall ft, In ft (fac_types self) ->
     get_zero_distance_effort (service_levels self) ft = Ok (Num (Jf ft))) ->
  (forall ft, In ft (fac_types self) ->
     get_effort_per_foot (service_levels self) ft = Ok (Num (Mf ft))) ->
  exists I, compute_pairwise_effort self = set_I_matrix I self /\
    nrows I = N_groups self /\ ncols I = L_facilities self /\
    forall n l, (l < L_facilities self)%nat ->
      item I n l =
        F64.add (Jf (nth l (fac_types self) (Num NaN)))
                (F64.mul (Fin (D_item self n l))
                         (Mf (nth l (fac_types self) (Num NaN)))).
Proof.
  intros Hpop HJ HM.
  destruct (D_matrix_ok self Hpop) as (D & HD & Hr & Hc & Hitem).
  unfold compute_pairwise_effort, mbind, mget, mlift.
  rewrite HD.
  rewrite (comprehension_ok _ (fun ft => Num (Jf ft)) _ HJ).
  rewrite (comprehension_ok _ (fun ft => Num (Mf ft)) _ HM).
  rewrite <- (map_map Jf Num), <- (map_map Mf Num), !as_floats_Num. cbn [rbind].
  rewrite broadcast_row_aligned
    by (rewrite Hc, length_map, length_fac_types; reflexivity).
  rewrite broadcast_row_aligned
    by (cbn [ncols]; rewrite Hc, length_map, length_fac_types; reflexivity).
  eexists. split; [reflexivity|].
  cbn [nrows ncols item]. repeat split; [exact Hr|exact Hc|].
  intros n l Hl. rewrite Hitem.
  rewrite <- length_fac_types in Hl.
  rewrite !(nth_map_in _ _ _ _ (Num NaN)) by exact Hl. reflexivity.
Qed.
End Stage1.

(** ** Running the stages *)

Section Runs.
Context {T : Type} `{ServiceLevelsLike T}.
Implicit Types self : @SocialBurdenCalculator T.
Local Open Scope R_scope.

Lemma ensure_cached field stage self A :
  field self = Some A -> ensure field stage self = (Ok tt, self).
Proof. intros E. unfold ensure. rewrite E. reflexivity. Qed.

Lemma ensure_missing field stage self :
  field self = None -> ensure field stage self = stage self.
Proof. intros E. unfold ensure. rewrite E. reflexivity. Qed.

Lemma compute_service_accessibility_run self self1 I :
  ensure I_matrix compute_pairwise_effort self = (Ok tt, self1) ->
  I_matrix self1 = Some I ->
  compute_service_accessibility self =
    set_G_matrix (Numpy.where_positive_reciprocal I) self1.
Proof.
  unfold ensure, compute_service_accessibility, mbind, mget, mret, operand.
  intros Hrun HI. destruct (I_matrix self).
  - injection Hrun as <-. rewrite HI. reflexivity.
  - rewrite Hrun, HI. reflexivity.
Qed.

Lemma compute_effort_matrix_run self self1 G S W :
  ensure G_matrix compute_service_accessibility self = (Ok tt, self1) ->
  G_matrix self1 = Some G ->
  S_lm self1 = Ok S ->
  weighted_service G S = Ok W ->
  compute_effort_matrix self =
    set_E_matrix (Numpy.nan_to_num 1e6 (Numpy.reciprocal (Numpy.zeros_to_nan W))) self1.
Proof.
  unfold ensure, compute_effort_matrix, mbind, mget, mret, mlift, operand.
  intros Hrun HG HS HW. destruct (G_matrix self).
  - injection Hrun as <-. rewrite HS, HG, HW. reflexivity.
  - rewrite Hrun, HS, HG, HW. reflexivity.
Qed.

Lemma compute_social_burden_run ability_column self self1 E pop_gdf ability a B labels :
  ensure E_matrix compute_effort_matrix self = (Ok tt, self1) ->
  E_matrix self1 = Some E ->
  PopulationGroupInfo.merge_data (population_info self1) ability_column = Ok pop_gdf ->
  Pandas.getitem (Str ability_column) pop_gdf = Ok ability ->
  Numpy.as_floats (s_values ability) = Ok a ->
  Numpy.broadcast_column F64.div E a = Ok B ->
  index_of (service_levels self1) = Ok labels ->
  compute_social_burden ability_column self =
    (frame_of_array B (Some labels), snd (set_B_matrix B self1)).
Proof.
  unfold ensure, compute_social_burden, mbind, mget, mret, mlift, operand.
  intros Hrun HE Hm Hg Ha HB Hl. destruct (E_matrix self).
  - injection Hrun as <-. rewrite Hm, Hg, HE, Ha. cbn [rbind]. rewrite HB.
    cbn. rewrite Hl. reflexivity.
  - rewrite Hrun, Hm, Hg, HE, Ha. cbn [rbind]. rewrite HB.
    cbn. rewrite Hl. reflexivity.
Qed.

(** The items of the accessibility matrix on finite efforts. *)
Lemma accessibility_item (I : ndarray) n l :
  item (Numpy.where_positive_reciprocal I) n l =
    if F64.gtb (item I n l) F64.zero then F64.div F64.one (item I n l)
    else F64.zero.
Proof. reflexivity. Qed.

Lemma accessibility_item_pos (I : ndarray) n l i :
  item I n l = Fin i -> 0 < i ->
  item (Numpy.where_positive_reciprocal I) n l = Fin (1 / i).
Proof.
  intros E Hi. rewrite accessibility_item, E, F64Facts.gtb_zero_true by exact Hi.
  apply F64Facts.div_finite. lra.
Qed.

Lemma accessibility_item_nonpos (I : ndarray) n l i :
  item I n l = Fin i -> i <= 0 ->
  item (Numpy.where_positive_reciprocal I) n l = Fin 0.
Proof.
  intros E Hi. rewrite accessibility_item, E, F64Facts.gtb_zero_false by exact Hi.
  reflexivity.
Qed.

(** The edge-case policy of stage 3, on the product the code forms. *)
Lemma effort_item_policy (W : ndarray) n m :
  let E := Numpy.nan_to_num 1e6 (Numpy.reciprocal (Numpy.zeros_to_nan W)) in
  (F64.eqb (item W n m) F64.zero = true -> item E n m = Fin 1e6) /\
  (forall w, item W n m = Fin w -> w <> 0 -> item E n m = Fin (1 / w)) /\
  is_finite (item E n m).
Proof.
  cbn [item Numpy.nan_to_num Numpy.reciprocal Numpy.zeros_to_nan Numpy.map_items].
  repeat split.
  - intros ->. reflexivity.
  - intros w -> Hw. rewrite F64Facts.eqb_zero_false by exact Hw.
    unfold F64.one. rewrite F64Facts.div_finite by exact Hw. reflexivity.
  - apply F64Facts.nan_to_num_finite.
Qed.
End Runs.

(** ** Stage 1 and stage 2 *)

Section Stage12.
Context {T : Type} `{ServiceLevelsLike T}.
Implicit Types self : @SocialBurdenCalculator T.
Local Open Scope R_scope.



End Stage12.




(** ** A whole run on a fresh calculator *)

Section FreshRun.
Context {T : Type} `{ServiceLevelsLike T}.
Implicit Types self : @SocialBurdenCalculator T.
Local Open Scope R_scope.

Lemma dot_aligned (A B : ndarray) :
  ncols A = nrows B ->
  Numpy.dot A B =
    Ok {| nrows := nrows A; ncols := ncols B;
          item := fun i j =>
            Numpy.sum_upto (ncols A)
              (fun l => F64.mul (item A i l) (item B l j)) |}.
Proof.
  intros E. unfold Numpy.dot. rewrite E, Nat.eqb_refl. reflexivity.
Qed.

Lemma broadcast_column_aligned op (A : ndarray) (v : list float64) :
  nrows A = length v ->
  Numpy.broadcast_column op A v =
    Ok {| nrows := nrows A; ncols := ncols A;
          item := fun i j => op (item A i j) (nth i v NaN) |}.
Proof.
  intros E. unfold Numpy.broadcast_column. rewrite E, Nat.eqb_refl. reflexivity.
Qed.

Lemma compute_effort_matrix_fresh self (Jf Mf : cell -> float64) S :
  I_matrix self = None -> G_matrix self = None ->
  PopulationGroupInfo.gdf_layer (population_info self) <> [] ->
  (forall ft, In ft (fac_types self) ->
     get_zero_distance_effort (service_levels self) ft = Ok (Num (Jf ft))) ->
  (forall ft, In ft (fac_types self) ->
     get_effort_per_foot (service_levels self) ft = Ok (Num (Mf ft))) ->
  S_lm self = Ok S -> nrows S = L_facilities self ->
  exists I W,
    let G := Numpy.where_positive_reciprocal I in
    let E := Numpy.nan_to_num 1e6 (Numpy.reciprocal (Numpy.zeros_to_nan W)) in
    compute_effort_matrix self = (Ok tt, after_stage3 self I G E) /\
    weighted_service G S = Ok W /\
    nrows I = N_groups self /\ ncols I = L_facilities self /\
    (forall n l, (l < L_facilities self)%nat ->
       item I n l =
         F64.add (Jf (facility_type_at self l))
                 (F64.mul (Fin (D_item self n l)) (Mf (facility_type_at self l)))) /\
    nrows W = N_groups self /\ ncols W = ncols S /\
    (forall n m, item W n m =
       Numpy.sum_upto (L_facilities self)
         (fun l => F64.mul (item G n l) (item S l m))).
Proof.
  intros HI HG Hpop HJ HM HS HrS.
  destruct (compute_pairwise_effort_ok self Jf Mf Hpop HJ HM)
    as (I & Hrun & Hr & Hc & Hitem).
  pose (G := Numpy.where_positive_reciprocal I).
  assert (Hdot : exists W, weighted_service G S = Ok W /\
            nrows W = N_groups self /\ ncols W = ncols S /\
            forall n m, item W n m =
              Numpy.sum_upto (L_facilities self)
                (fun l => F64.mul (item G n l) (item S l m))).
  { unfold weighted_service.
    rewrite dot_aligned by (rewrite HrS; exact Hc).
    eexists. split; [reflexivity|].
    change (ncols G) with (ncols I). change (nrows G) with (nrows I).
    cbn [nrows ncols item]. rewrite Hc. auto. }
  destruct Hdot as (W & HW & HrW & HcW & HWitem).
  exists I, W. cbn zeta. fold G.
  split; [|repeat split; assumption].
  assert (Hcsa : compute_service_accessibility self =
                   set_G_matrix G (snd (set_I_matrix I self))).
  { apply compute_service_accessibility_run; [|reflexivity].
    rewrite (ensure_missing _ _ _ HI). exact Hrun. }
  rewrite (compute_effort_matrix_run self (snd (set_G_matrix G (snd (set_I_matrix I self)))) G S W).
  - reflexivity.
  - rewrite (ensure_missing _ _ _ HG). exact Hcsa.
  - reflexivity.
  - exact HS.
  - exact HW.
Qed.

Lemma compute_social_burden_fresh ability_column self (Jf Mf : cell -> float64)
    S pop_gdf ability a labels :
  I_matrix self = None -> G_matrix self = None -> E_matrix self = None ->
  PopulationGroupInfo.gdf_layer (population_info self) <> [] ->
  (forall ft, In ft (fac_types self) ->
     get_zero_distance_effort (service_levels self) ft = Ok (Num (Jf ft))) ->
  (forall ft, In ft (fac_types self) ->
     get_effort_per_foot (service_levels self) ft = Ok (Num (Mf ft))) ->
  S_lm self = Ok S -> nrows S = L_facilities self ->
  PopulationGroupInfo.merge_data (population_info self) ability_column = Ok pop_gdf ->
  Pandas.getitem (Str ability_column) pop_gdf = Ok ability ->
  Numpy.as_floats (s_values ability) = Ok a ->
  length a = N_groups self ->
  index_of (service_levels self) = Ok labels ->
  exists I W B,
    let G := Numpy.where_positive_reciprocal I in
    let E := Numpy.nan_to_num 1e6 (Numpy.reciprocal (Numpy.zeros_to_nan W)) in
    compute_social_burden ability_column self =
      (frame_of_array B (Some labels),
       snd (set_B_matrix B (after_stage3 self I G E))) /\
    weighted_service G S = Ok W /\
    nrows I = N_groups self /\ ncols I = L_facilities self /\
    (forall n l, (l < L_facilities self)%nat ->
       item I n l =
         F64.add (Jf (facility_type_at self l))
                 (F64.mul (Fin (D_item self n l)) (Mf (facility_type_at self l)))) /\
    nrows W = N_groups self /\ ncols W = ncols S /\
    (forall n m, item W n m =
       Numpy.sum_upto (L_facilities self)
         (fun l => F64.mul (item G n l) (item S l m))) /\
    nrows B = N_groups self /\ ncols B = ncols S /\
    (forall n m, item B n m = F64.div (item E n m) (nth n a NaN)).
Proof.
  intros HI HG HE Hpop HJ HM HS HrS Hm Hg Ha Hlen Hl.
  destruct (compute_effort_matrix_fresh self Jf Mf S HI HG Hpop HJ HM HS HrS)
    as (I & W & Hrun & Hdot & Hr & Hc & Hitem & HrW & HcW & HWitem).
  cbn zeta in Hrun.
  set (G := Numpy.where_positive_reciprocal I) in *.
  set (E := Numpy.nan_to_num 1e6 (Numpy.reciprocal (Numpy.zeros_to_nan W))) in *.
  assert (HB : exists B, Numpy.broadcast_column F64.div E a = Ok B /\
             nrows B = N_groups self /\ ncols B = ncols S /\
             forall n m, item B n m = F64.div (item E n m) (nth n a NaN)).
  { rewrite broadcast_column_aligned by (rewrite Hlen; exact HrW).
    eexists. split; [reflexivity|].
    split; [exact HrW|split; [exact HcW|reflexivity]]. }
  destruct HB as (B & HB & HrB & HcB & HBitem).
  exists I, W, B. cbn zeta. fold G E.
  split; [|repeat split; assumption].
  apply (compute_social_burden_run ability_column self (after_stage3 self I G E) E
           pop_gdf ability a B labels); try assumption.
  - rewrite (ensure_missing _ _ _ HE). exact Hrun.
  - reflexivity.
Qed.
End FreshRun.

(** ** The end-to-end scenario *)

Module ScenarioFacts.
Local Open Scope R_scope.

(** The decimal interval of pi used for the numeric values, from the
    arctangent series of [PI_2_3_7_ineq]. *)
Lemma PI_bounds : 3.1415926 < PI < 3.1415927.
Proof.
  pose proof (PI_2_3_7_ineq 3) as [Hlo Hhi].
  unfold PI_2_3_7_tg, tg_alt, Ratan_seq in Hlo, Hhi.
  cbn [sum_f_R0 Nat.mul Nat.add pow INR] in Hlo, Hhi.
  split; lra.
Qed.

Lemma haversine_same_first (a b c : R) :
  0 <= b - c <= PI ->
  Sklearn.haversine (a, b) (a, c) = 2 * asin (Rabs (cos a) * sin ((b - c) / 2)).
Proof.
  intros Hbc. unfold Sklearn.haversine. cbn [fst snd].
  replace ((a - a) / 2) with 0 by lra. rewrite sin_0.
  assert (Hs : 0 <= sin ((b - c) / 2)) by (apply sin_ge_0; lra).
  replace (0 ^ 2 + cos a * cos a * sin ((b - c) / 2) ^ 2)
    with (Rsqr (Rabs (cos a) * sin ((b - c) / 2))).
  - rewrite sqrt_Rsqr; [reflexivity|].
    apply Rmult_le_pos; [apply Rabs_pos|exact Hs].
  - rewrite Rsqr_mult, <- Rsqr_abs. unfold Rsqr. ring.
Qed.

Lemma haversine_same_point (x : R * R) : Sklearn.haversine x x = 0.
Proof.
  destruct x as [a b]. pose proof PI_RGT_0.
  rewrite haversine_same_first by lra.
  replace ((b - b) / 2) with 0 by lra.
  rewrite sin_0, Rmult_0_r, asin_0. lra.
Qed.

(** One degree between two points whose first coordinate is zero. *)
Lemma haversine_one_degree :
  Sklearn.haversine (Numpy.radians 0, Numpy.radians 1)
                    (Numpy.radians 0, Numpy.radians 0) = PI / 180.
Proof.
  pose proof PI_RGT_0. unfold Numpy.radians.
  rewrite haversine_same_first by lra.
  rewrite Rmult_0_l, cos_0, Rabs_R1, Rmult_1_l.
  rewrite asin_sin by lra. lra.
Qed.
End ScenarioFacts.

Module ScenarioRun.
Local Open Scope R_scope.


Lemma d2_bounds : 111194.92 < Scenario.d2 < 111194.93.
Proof. unfold Scenario.d2. pose proof ScenarioFacts.PI_bounds. lra. Qed.

Lemma i2_bounds : 5560.146 < Scenario.i2 < 5560.1465.
Proof. unfold Scenario.i2. pose proof d2_bounds. lra. Qed.

Lemma D_item_0 a1 a2 : D_item (Scenario.calculator a1 a2) 0 0 = 0.
Proof.
  unfold D_item. cbn [nth pop_coords fac_coords map Scenario.calculator new
    population_info facility_info PopulationGroupInfo.gdf_layer
    Scenario.population Scenario.facilities FacilityInfo.gdf_layer
    FacilityInfo.first_row FacilityInfo.more_rows
    PopulationGroupInfo.CBG_longitude PopulationGroupInfo.CBG_latitude
    FacilityInfo.Facility_longitude FacilityInfo.Facility_latitude].
  rewrite ScenarioFacts.haversine_same_point. lra.
Qed.

Lemma D_item_1 a1 a2 : D_item (Scenario.calculator a1 a2) 1 0 = Scenario.d2.
Proof.
  unfold D_item. cbn [nth pop_coords fac_coords map Scenario.calculator new
    population_info facility_info PopulationGroupInfo.gdf_layer
    Scenario.population Scenario.facilities FacilityInfo.gdf_layer
    FacilityInfo.first_row FacilityInfo.more_rows
    PopulationGroupInfo.CBG_longitude PopulationGroupInfo.CBG_latitude
    FacilityInfo.Facility_longitude FacilityInfo.Facility_latitude].
  rewrite ScenarioFacts.haversine_one_degree. reflexivity.
Qed.

(** The run of the whole pipeline on the scenario, for any two ability
    scores: every array it produces, item by item. *)
Lemma run a1 a2 :
  exists D I G W E B,
    Scenario.produces a1 a2 D I G W E B /\
    (item D 0 0 = Fin 0 /\ item D 1 0 = Fin Scenario.d2) /\
    (item I 0 0 = Fin 0.4 /\ item I 1 0 = Fin Scenario.i2) /\
    (item G 0 0 = Fin 2.5 /\ item G 1 0 = Fin (1 / Scenario.i2)) /\
    (item W 0 0 = item G 0 0 /\ item W 1 0 = item G 1 0) /\
    (item E 0 0 = Fin 0.4 /\ item E 1 0 = Fin Scenario.i2) /\
    (item B 0 0 = F64.div (Fin 0.4) a1 /\ item B 1 0 = F64.div (Fin Scenario.i2) a2).
Proof.
  set (self := Scenario.calculator a1 a2).
  assert (Hpop : PopulationGroupInfo.gdf_layer (population_info self) <> [])
    by discriminate.
  destruct (D_matrix_ok self Hpop) as (D & HD & _ & _ & HDitem).
  destruct (compute_social_burden_fresh "Ability" self
              (fun _ => Fin 0.4) (fun _ => Fin 0.05) Scenario.S
              (Scenario.merged a1 a2)
              {| s_index := RangeIndex 2; s_values := [Num a1; Num a2] |}
              [a1; a2] [Str "General"])
    as (I & W & B & Hrun & Hdot & _ & _ & HI & _ & _ & HW & HrB & HcB & HB);
    try reflexivity; try assumption.
  { intros ft [<-|[]]; reflexivity. }
  { intros ft [<-|[]]; reflexivity. }
  cbn zeta in Hrun.
  set (G := Numpy.where_positive_reciprocal I) in *.
  set (E := Numpy.nan_to_num 1e6 (Numpy.reciprocal (Numpy.zeros_to_nan W))) in *.
  pose proof i2_bounds as Hi2.
  assert (HI0 : item I 0 0 = Fin 0.4).
  { rewrite HI by (cbn; lia). unfold self. rewrite D_item_0. cbn [F64.add F64.mul].
    f_equal. lra. }
  assert (HI1 : item I 1 0 = Fin Scenario.i2).
  { rewrite HI by (cbn; lia). unfold self. rewrite D_item_1. reflexivity. }
  assert (HG0 : item G 0 0 = Fin 2.5).
  { unfold G. rewrite (accessibility_item_pos I 0 0 0.4 HI0) by lra.
    f_equal. lra. }
  assert (HG1 : item G 1 0 = Fin (1 / Scenario.i2)).
  { unfold G. apply (accessibility_item_pos I 1 0 Scenario.i2 HI1). lra. }
  assert (HWG : forall n g, item G n 0 = Fin g -> item W n 0 = Fin g).
  { intros n g Hg. rewrite HW.
    change (L_facilities self) with 1%nat.
    cbn [Numpy.sum_upto seq fold_left]. rewrite Hg.
    cbn. f_equal. lra. }
  assert (HE : forall n g, item G n 0 = Fin g -> g <> 0 ->
                 item E n 0 = Fin (1 / g)).
  { intros n g Hg Hne.
    apply (effort_item_policy W n 0); [apply HWG; exact Hg|exact Hne]. }
  assert (HE0 : item E 0 0 = Fin 0.4).
  { rewrite (HE 0%nat 2.5 HG0) by lra. f_equal. lra. }
  assert (HE1 : item E 1 0 = Fin Scenario.i2).
  { assert (Hinv : 0 < / Scenario.i2) by (apply Rinv_0_lt_compat; lra).
    rewrite (HE 1%nat (1 / Scenario.i2) HG1) by (unfold Rdiv; lra).
    f_equal. field. lra. }
  exists D, I, G, W, E, B.
  split; [|repeat split].
  - unfold Scenario.produces. fold self.
    change (ncols Scenario.S) with 1%nat in HcB.
    change (N_groups self) with 2%nat in HrB.
    exists {| index := RangeIndex 2; columns := [Str "General"];
              rows := [[Num (item B 0 0)]; [Num (item B 1 0)]] |}.
    eexists. split.
    { rewrite Hrun. unfold frame_of_array. rewrite HcB, HrB. reflexivity. }
    repeat split; try reflexivity; [exact HD|exact Hdot].
  - rewrite HDitem. unfold self. rewrite D_item_0. reflexivity.
  - rewrite HDitem. unfold self. rewrite D_item_1. reflexivity.
  - exact HI0.
  - exact HI1.
  - exact HG0.
  - exact HG1.
  - rewrite HG0. apply HWG, HG0.
  - rewrite HG1. apply HWG, HG1.
  - exact HE0.
  - exact HE1.
  - rewrite HB, HE0. reflexivity.
  - rewrite HB, HE1. reflexivity.
Qed.

(** A run determines what it produces. *)
Lemma produces_E_B a1 a2 D I G W E B D' I' G' W' E' B' :
  Scenario.produces a1 a2 D I G W E B ->
  Scenario.produces a1 a2 D' I' G' W' E' B' ->
  E = E' /\ B = B'.
Proof.
  intros (f & s & Hrun & _ & _ & _ & _ & HE & HB & _)
         (f' & s' & Hrun' & _ & _ & _ & _ & HE' & HB' & _).
  rewrite Hrun in Hrun'. injection Hrun' as _ <-.
  split; congruence.
Qed.

Lemma within_abs tol r v : Rabs (r - v) <= tol -> within tol (Fin r) v.
Proof. intros Hr. exists r. split; [reflexivity|exact Hr]. Qed.
End ScenarioRun.

(** C3 (as amended). The run of the scenario through
    [compute_social_burden] returns the frame of B and produces
    D = [0, ~111195], I = [0.4, ~5560.15], G = [2.5, ~0.00018], W = G,
    E = [0.4, ~5560.15] and B = [0.2, ~5560.15], each approximate value
    to half a unit of its last digit. *)
Theorem scenario_values :
  exists D I G W E B,
    Scenario.produces (Fin 2%R) (Fin 1%R) D I G W E B /\
    Scenario.expected 5560.15%R 0.005%R D I G W E B.
Proof.
  destruct (ScenarioRun.run (Fin 2%R) (Fin 1%R))
    as (D & I & G & W & E & B & Hp & [HD0 HD1] & [HI0 HI1] & [HG0 HG1]
        & HW & [HE0 HE1] & [HB0 HB1]).
  exists D, I, G, W, E, B. split; [exact Hp|].
  pose proof ScenarioRun.d2_bounds as Hd. pose proof ScenarioRun.i2_bounds as Hi.
  assert (Hg : (0.00017985 < 1 / Scenario.i2 < 0.00017986)%R).
  { assert (Hinv : (0 < / Scenario.i2)%R) by (apply Rinv_0_lt_compat; lra).
    unfold Rdiv. rewrite Rmult_1_l. split.
    - apply (Rmult_lt_reg_r Scenario.i2); [lra|].
      rewrite Rinv_l by lra. lra.
    - apply (Rmult_lt_reg_r Scenario.i2); [lra|].
      rewrite Rinv_l by lra. lra. }
  unfold Scenario.expected. repeat split.
  - exact HD0.
  - rewrite HD1. apply ScenarioRun.within_abs, Rabs_le. lra.
  - exact HI0.
  - rewrite HI1. apply ScenarioRun.within_abs, Rabs_le. lra.
  - exact HG0.
  - rewrite HG1. apply ScenarioRun.within_abs, Rabs_le. lra.
  - apply HW.
  - apply HW.
  - exact HE0.
  - rewrite HE1. apply ScenarioRun.within_abs, Rabs_le. lra.
  - rewrite HB0, F64Facts.div_finite by lra. f_equal. lra.
  - rewrite HB1, F64Facts.div_finite by lra.
    apply ScenarioRun.within_abs, Rabs_le. lra.
Qed.

(** C3 (as stated) fails: the run does not produce E = [0.4, ~5559.77]
    and B = [0.2, ~5559.77], not even to within 0.3. *)
Lemma scenario_values_as_stated_fail :
  ~ exists D I G W E B,
      Scenario.produces (Fin 2%R) (Fin 1%R) D I G W E B /\
      Scenario.expected 5559.77%R 0.3%R D I G W E B.
Proof.
  intros (D & I & G & W & E & B & Hp & Hexp).
  destruct (ScenarioRun.run (Fin 2%R) (Fin 1%R))
    as (D' & I' & G' & W' & E' & B' & Hp' & _ & _ & _ & _ & [_ HE1] & _).
  destruct (ScenarioRun.produces_E_B _ _ _ _ _ _ _ _ _ _ _ _ _ _ Hp Hp') as [-> _].
  destruct Hexp as (_ & _ & _ & _ & [_ (r & Hr & Habs)] & _).
  rewrite HE1 in Hr. injection Hr as <-.
  pose proof ScenarioRun.i2_bounds as Hi.
  unfold Rabs in Habs. destruct (Rcase_abs _) in Habs; lra.
Qed.

(** ** Zero ability scores *)

Section ZeroAbility.
Context {T : Type} `{ServiceLevelsLike T}.
Implicit Types self : @SocialBurdenCalculator T.
Local Open Scope R_scope.


End ZeroAbility.



(** ** Stage 3 against the formula of its docstring *)

Section Stage3.
Context {T : Type} `{ServiceLevelsLike T}.
Implicit Types self : @SocialBurdenCalculator T.

Lemma compute_effort_matrix_raise self self1 G S e :
  ensure G_matrix compute_service_accessibility self = (Ok tt, self1) ->
  G_matrix self1 = Some G ->
  S_lm self1 = Ok S ->
  weighted_service G S = Raise e ->
  compute_effort_matrix self = (Raise e, self1).
Proof.
  unfold ensure, compute_effort_matrix, mbind, mget, mret, mlift, operand.
  intros Hrun HG HS HW. destruct (G_matrix self).
  - injection Hrun as <-. rewrite HS, HG, HW. reflexivity.
  - rewrite Hrun, HS, HG, HW. reflexivity.
Qed.

(** [S_lm] is the transpose of the rows of the specification. *)
Lemma S_lm_transposes self :
  S_lm self = rbind (service_level_rows self) (fun S => Ok (Numpy.T S)).
Proof.
  unfold S_lm, service_level_rows.
  destruct (subscript _ _); [|reflexivity]. cbn [rbind].
  destruct (comprehension _ _); reflexivity.
Qed.

(** On a fresh calculator whose stages 1 and 2 succeed, stage 3 raises
    as soon as the number of categories differs from the number of
    facilities. *)
Lemma compute_effort_matrix_shape_error self (Jf Mf : cell -> float64) S :
  I_matrix self = None -> G_matrix self = None ->
  PopulationGroupInfo.gdf_layer (population_info self) <> [] ->
  (forall ft, In ft (fac_types self) ->
     get_zero_distance_effort (service_levels self) ft = Ok (Num (Jf ft))) ->
  (forall ft, In ft (fac_types self) ->
     get_effort_per_foot (service_levels self) ft = Ok (Num (Mf ft))) ->
  service_level_rows self = Ok S ->
  ncols S <> L_facilities self ->
  exists I,
    compute_effort_matrix self =
      (Raise (ValueError "shapes not aligned"),
       snd (set_G_matrix (Numpy.where_positive_reciprocal I)
              (snd (set_I_matrix I self)))).
Proof.
  intros HI HG Hpop HJ HM HS Hne.
  destruct (compute_pairwise_effort_ok self Jf Mf Hpop HJ HM)
    as (I & Hrun & Hr & Hc & Hitem).
  exists I.
  apply (compute_effort_matrix_raise self _ (Numpy.where_positive_reciprocal I)
           (Numpy.T S)).
  - rewrite (ensure_missing _ _ _ HG).
    apply compute_service_accessibility_run; [|reflexivity].
    rewrite (ensure_missing _ _ _ HI). exact Hrun.
  - reflexivity.
  - change (S_lm self = Ok (Numpy.T S)). rewrite S_lm_transposes, HS. reflexivity.
  - unfold weighted_service, Numpy.dot.
    change (ncols (Numpy.where_positive_reciprocal I)) with (ncols I).
    change (nrows (Numpy.T S)) with (ncols S).
    rewrite Hc. destruct (Nat.eqb_spec (L_facilities self) (ncols S)) as [E|_].
    + symmetry in E. contradiction.
    + reflexivity.
Qed.
End Stage3.

(** C1 (the code at two inputs). With a clinic and a hospital that both
    offer no "Food", the weighted availability of the specification for
    "Food", [sum over l of G(0,l) * S(l,Food)], is exactly 0, yet
    [compute_effort_matrix] stores E(0,0) = 0.4 and not 1e6: it multiplies
    G by the transpose of S.  With two libraries and the single category
    "General" the product does not exist and the method raises. *)
Theorem effort_matrix_uses_transposed_levels :
  (exists I W,
     let G := Numpy.where_positive_reciprocal I in
     let E := Numpy.nan_to_num 1e6 (Numpy.reciprocal (Numpy.zeros_to_nan W)) in
     compute_effort_matrix TwoCategories.calculator =
       (Ok tt, after_stage3 TwoCategories.calculator I G E) /\
     service_level_rows TwoCategories.calculator = Ok TwoCategories.stacked /\
     weighted_availability G TwoCategories.stacked 0 0 = Fin 0%R /\
     item E 0 0 = Fin 0.4%R /\ item E 0 0 <> Fin 1e6%R) /\
  (exists I,
     service_level_rows TwoLibraries.calculator = Ok TwoLibraries.stacked /\
     compute_effort_matrix TwoLibraries.calculator =
       (Raise (ValueError "shapes not aligned"),
        snd (set_G_matrix (Numpy.where_positive_reciprocal I)
               (snd (set_I_matrix I TwoLibraries.calculator))))).
Proof.
  split.
  - set (self := TwoCategories.calculator).
    destruct (compute_effort_matrix_fresh self
                (fun _ => Fin 0.4%R) (fun _ => Fin 0.05%R)
                (Numpy.T TwoCategories.stacked))
      as (I & W & Hrun & _ & _ & Hc & HI & _ & _ & HW);
      try reflexivity; try discriminate.
    { intros ft [<-|[<-|[]]]; reflexivity. }
    { intros ft [<-|[<-|[]]]; reflexivity. }
    exists I, W. cbn zeta in *.
    assert (HG : forall l, (l < 2)%nat ->
              item (Numpy.where_positive_reciprocal I) 0 l = Fin 2.5%R).
    { intros l Hl.
      assert (EI : item I 0 l = Fin 0.4%R).
      { rewrite HI by exact Hl.
        assert (Ed : D_item self 0 l = 0%R).
        { unfold D_item.
          destruct l as [|[|l]]; [| |lia];
            cbn [nth pop_coords fac_coords map self TwoCategories.calculator new
              population_info facility_info PopulationGroupInfo.gdf_layer
              TwoCategories.population TwoCategories.facilities
              FacilityInfo.gdf_layer FacilityInfo.first_row FacilityInfo.more_rows
              PopulationGroupInfo.CBG_longitude PopulationGroupInfo.CBG_latitude
              FacilityInfo.Facility_longitude FacilityInfo.Facility_latitude];
            rewrite ScenarioFacts.haversine_same_point; lra. }
        rewrite Ed. cbn [F64.add F64.mul]. f_equal. lra. }
      rewrite (accessibility_item_pos I 0 l 0.4%R EI) by lra. f_equal. lra. }
    split; [exact Hrun|]. split; [reflexivity|].
    assert (HE : item (Numpy.nan_to_num 1e6
                  (Numpy.reciprocal (Numpy.zeros_to_nan W))) 0 0 = Fin 0.4%R).
    { assert (EW : item W 0 0 = Fin 2.5%R).
      { rewrite HW. change (L_facilities self) with 2%nat.
        cbn [Numpy.sum_upto seq fold_left].
        rewrite !HG by lia.
        cbn [item Numpy.T TwoCategories.stacked nth F64.mul F64.add F64.zero].
        f_equal. lra. }
      rewrite (proj1 (proj2 (effort_item_policy W 0 0)) 2.5%R EW) by lra.
      f_equal. lra. }
    split; [|split; [exact HE|]].
    + unfold weighted_availability.
      change (ncols (Numpy.where_positive_reciprocal I)) with (ncols I).
      rewrite Hc. change (L_facilities self) with 2%nat.
      cbn [Numpy.sum_upto seq fold_left].
      rewrite !HG by lia.
      cbn [item TwoCategories.stacked nth F64.mul F64.add F64.zero].
      f_equal. lra.
    + rewrite HE. intros Heq. injection Heq as Heq. lra.
  - destruct (compute_effort_matrix_shape_error TwoLibraries.calculator
                (fun _ => Fin 0.4%R) (fun _ => Fin 0.05%R) TwoLibraries.stacked)
      as (I & Hrun); try reflexivity; try discriminate.
    { intros ft [<-|[<-|[]]]; reflexivity. }
    { intros ft [<-|[<-|[]]]; reflexivity. }
    exists I. split; [reflexivity|exact Hrun].
Qed.

(** ** The distance matrix against the great circle *)

Module MeridianFacts.
Local Open Scope R_scope.

Lemma haversine_same_second (a b c : R) :
  0 <= a - b <= PI ->
  Sklearn.haversine (a, c) (b, c) = a - b.
Proof.
  intros Hab. unfold Sklearn.haversine. cbn [fst snd].
  replace ((c - c) / 2) with 0 by lra. rewrite sin_0.
  assert (Hs : 0 <= sin ((a - b) / 2)) by (apply sin_ge_0; lra).
  replace (sin ((a - b) / 2) ^ 2 + cos a * cos b * 0 ^ 2)
    with (Rsqr (sin ((a - b) / 2))) by (unfold Rsqr; ring).
  rewrite sqrt_Rsqr by exact Hs.
  rewrite asin_sin by lra. lra.
Qed.

Lemma code_angle :
  Sklearn.haversine (Numpy.radians 90, Numpy.radians 45)
                    (Numpy.radians 90, Numpy.radians 0) = 0.
Proof.
  pose proof PI_RGT_0. unfold Numpy.radians.
  rewrite ScenarioFacts.haversine_same_first by lra.
  replace (90 * (PI / 180)) with (PI / 2) by lra.
  rewrite cos_PI2, Rabs_R0, Rmult_0_l, asin_0. lra.
Qed.

Lemma true_angle : great_circle_angle (90, 45) (90, 0) = PI / 4.
Proof.
  pose proof PI_RGT_0. unfold great_circle_angle, Numpy.radians. cbn [fst snd].
  rewrite haversine_same_second by lra. lra.
Qed.
End MeridianFacts.

(** C4 (the code at one input). For a population group at longitude 90,
    latitude 45 and a facility at longitude 90, latitude 0 the distance
    matrix holds 0, although the two points differ and their
    great-circle distance is a quarter of pi times 6,371,000 m: the
    coordinates reach the library as (longitude, latitude), which reads
    the first as the latitude. *)
Theorem distance_zero_between_distinct_points :
  exists D,
    D_matrix Meridian.calculator = Ok D /\
    item D 0 0 = Fin 0%R /\
    (90%R, 45%R) <> (90%R, 0%R) /\
    (great_circle_angle (90, 45) (90, 0) * 6371000 = PI / 4 * 6371000)%R /\
    (0 < PI / 4 * 6371000)%R.
Proof.
  destruct (D_matrix_ok Meridian.calculator) as (D & HD & _ & _ & Hitem);
    [discriminate|].
  exists D. split; [exact HD|]. split; [|split; [|split]].
  - rewrite Hitem. unfold D_item.
    cbn [nth pop_coords fac_coords map Meridian.calculator new
      population_info facility_info PopulationGroupInfo.gdf_layer
      Meridian.population Meridian.facilities FacilityInfo.gdf_layer
      FacilityInfo.first_row FacilityInfo.more_rows
      PopulationGroupInfo.CBG_longitude PopulationGroupInfo.CBG_latitude
      FacilityInfo.Facility_longitude FacilityInfo.Facility_latitude].
    rewrite MeridianFacts.code_angle. f_equal. lra.
  - intros Heq. injection Heq as Heq. lra.
  - rewrite MeridianFacts.true_angle. reflexivity.
  - pose proof PI_RGT_0. lra.
Qed.

(** ** [ServiceLevels] *)

(** C7 (the code at one table). On the attributes the extraction
    statements give for the table with the single row Library (0.4, 0.05,
    General = 1.0): for the absent type "Clinic" the two getters return
    0.4 and 0.05 and [get_service_level] raises [KeyError]; for the
    present pair ("Library", "General") [get_service_level] raises
    [KeyError] too instead of returning 1.0, because the frame it reads is
    the transposed one, labelled by category first. *)
Theorem service_level_lookup_on_library_table :
  ServiceLevels.loaded_from Scenario.csv = Ok Scenario.levels /\
  ServiceLevels.get_zero_distance_effort Scenario.levels (Str "Clinic")
    = Ok (Num (Fin 0.4%R)) /\
  ServiceLevels.get_effort_per_foot Scenario.levels (Str "Clinic")
    = Ok (Num (Fin 0.05%R)) /\
  ServiceLevels.get_service_level Scenario.levels (Str "Clinic") (Str "General")
    = Raise (KeyError "Clinic") /\
  ServiceLevels.get_service_level Scenario.levels (Str "Library") (Str "General")
    = Raise (KeyError "Library") /\
  ServiceLevels.get_service_level Scenario.levels (Str "General") (Str "Library")
    = Ok (Pandas.Scalar (Num (Fin 1%R))).
Proof. repeat split; reflexivity. Qed.

(** C8 (the code on every table). Whatever frame [pd.read_csv] returns
    for the path, constructing [ServiceLevels] raises [AttributeError]:
    [__init__] stores the frame as [sevice_levels_df] and then reads
    [service_levels_df]. *)
Theorem ServiceLevels_constructor_raises (fs : FileSystem) csv_path df :
  ServiceLevels.new (<[csv_path := df]> fs) csv_path
    = Raise (AttributeError "service_levels_df").
Proof.
  unfold ServiceLevels.new, ServiceLevels.init, mbind, mlift, read_csv.
  rewrite lookup_insert_eq. reflexivity.
Qed.

(** ** [save_results] *)

Section Save.
Context {T : Type} `{ServiceLevelsLike T}.
Implicit Types self : @SocialBurdenCalculator T.

(** C9. [save_results] raises its "has not been computed yet" error
    exactly when [B_matrix] is [None]; once [B] is stored, saving to a
    path that can be written returns without raising and puts the frame
    of [B] at that path. *)
Theorem save_results_raises_iff_not_computed self disk output_path :
  (fst (save_results output_path (self, disk)) = Raise not_computed
     <-> B_matrix self = None) /\
  (forall B, B_matrix self = Some B -> output_path ∉ locked disk ->
     exists frame,
       frame_of_array B None = Ok frame /\
       save_results output_path (self, disk) =
         (Ok tt, (self, {| files := <[output_path := frame]> (files disk);
                           locked := locked disk |}))).
Proof.
  unfold save_results. split.
  - destruct (B_matrix self) as [B|]; [|split; reflexivity].
    split; [|discriminate]. unfold frame_of_array, to_csv. cbn [rbind].
    destruct (decide (output_path ∈ locked disk)); cbn; discriminate.
  - intros B -> Hfree. eexists. split; [reflexivity|].
    unfold frame_of_array, to_csv. cbn [rbind].
    destruct (decide (output_path ∈ locked disk)); [contradiction|reflexivity].
Qed.
End Save.

Lemma save_results_raises_iff_not_computed_witness :
  let self := snd (set_B_matrix Scenario.cached_effort
                     (Scenario.calculator (Fin 2%R) (Fin 1%R))) in
  let disk := {| files := ∅; locked := ∅ |} in
  exists frame,
    frame_of_array Scenario.cached_effort None = Ok frame /\
    save_results "burden.csv" (self, disk) =
      (Ok tt, (self, {| files := <["burden.csv" := frame]> ∅; locked := ∅ |})).
Proof.
  cbn zeta.
  apply (proj2 (save_results_raises_iff_not_computed
                  (snd (set_B_matrix Scenario.cached_effort
                          (Scenario.calculator (Fin 2%R) (Fin 1%R))))
                  {| files := ∅; locked := ∅ |} "burden.csv")
               Scenario.cached_effort).
  - reflexivity.
  - apply not_elem_of_empty.
Defined.

(** ** The cached matrices across the stages *)

Section Frame.
Context {T : Type} `{ServiceLevelsLike T}.
Implicit Types self : @SocialBurdenCalculator T.

Ltac run_method :=
  repeat first
    [ progress cbn [fst snd I_matrix G_matrix E_matrix B_matrix
                    population_info facility_info service_levels]
    | progress unfold mbind, mret, mlift, mget, mmodify, mraise, operand,
        set_I_matrix, set_G_matrix, set_E_matrix, set_B_matrix
    | progress cbv beta
    | match goal with
      | Heq : ?x = _ |- context [match ?x with _ => _ end] => rewrite Heq
      | |- context [match ?x with _ => _ end] =>
          lazymatch x with
          | context [match _ with _ => _ end] => fail
          | _ => destruct x eqn:?
          end
      end ].

Ltac use_frame Hp :=
  repeat match type of Hp with
         | context [?m ?s] =>
             match goal with
             | Heq : m s = (_, _) |- _ => rewrite Heq in Hp; cbn [snd] in Hp
             end
         end.

Lemma compute_pairwise_effort_frame self :
  let self' := snd (compute_pairwise_effort self) in
  same_inputs self self' /\ G_matrix self' = G_matrix self /\
  E_matrix self' = E_matrix self /\ B_matrix self' = B_matrix self.
Proof.
  unfold compute_pairwise_effort, same_inputs. run_method; cbn; auto.
Qed.

Lemma compute_service_accessibility_frame self :
  let self' := snd (compute_service_accessibility self) in
  same_inputs self self' /\ kept I_matrix self self' /\
  E_matrix self' = E_matrix self /\ B_matrix self' = B_matrix self.
Proof.
  pose proof (compute_pairwise_effort_frame self) as Hp. cbn zeta in Hp.
  unfold compute_service_accessibility, same_inputs, kept in *.
  run_method; use_frame Hp; intuition congruence.
Qed.

Lemma compute_effort_matrix_frame self :
  let self' := snd (compute_effort_matrix self) in
  same_inputs self self' /\ kept I_matrix self self' /\
  kept G_matrix self self' /\ B_matrix self' = B_matrix self.
Proof.
  pose proof (compute_service_accessibility_frame self) as Hp. cbn zeta in Hp.
  unfold compute_effort_matrix, same_inputs, kept in *.
  run_method; use_frame Hp; intuition congruence.
Qed.

Lemma compute_social_burden_frame ability_column self :
  let self' := snd (compute_social_burden ability_column self) in
  same_inputs self self' /\ kept I_matrix self self' /\
  kept G_matrix self self' /\ kept E_matrix self self'.
Proof.
  pose proof (compute_effort_matrix_frame self) as Hp. cbn zeta in Hp.
  unfold compute_social_burden, same_inputs, kept in *.
  run_method; use_frame Hp; intuition congruence.
Qed.

Lemma save_results_frame output_path self disk :
  fst (snd (save_results output_path (self, disk))) = self.
Proof.
  unfold save_results. destruct (B_matrix self); [|reflexivity].
  destruct (rbind _ _); reflexivity.
Qed.

(** C10. Computing a later stage leaves every matrix cached by an
    earlier stage as it was: [compute_service_accessibility] keeps a
    cached [I_matrix]; [compute_effort_matrix] keeps cached [I_matrix]
    and [G_matrix]; [compute_social_burden] keeps cached [I_matrix],
    [G_matrix] and [E_matrix]; [save_results] keeps all four.  This holds
    whether the call returns or raises. *)
Theorem later_stages_keep_cached_matrices self ability_column output_path disk :
  kept I_matrix self (snd (compute_service_accessibility self)) /\
  (kept I_matrix self (snd (compute_effort_matrix self)) /\
   kept G_matrix self (snd (compute_effort_matrix self))) /\
  (kept I_matrix self (snd (compute_social_burden ability_column self)) /\
   kept G_matrix self (snd (compute_social_burden ability_column self)) /\
   kept E_matrix self (snd (compute_social_burden ability_column self))) /\
  (let self' := fst (snd (save_results output_path (self, disk))) in
   I_matrix self' = I_matrix self /\ G_matrix self' = G_matrix self /\
   E_matrix self' = E_matrix self /\ B_matrix self' = B_matrix self).
Proof.
  pose proof (compute_service_accessibility_frame self) as Ha.
  pose proof (compute_effort_matrix_frame self) as He.
  pose proof (compute_social_burden_frame ability_column self) as Hb.
  cbn zeta in *. rewrite save_results_frame. tauto.
Qed.
End Frame.

(** * Further properties of the code *)

(** ** The effort dictionaries of [ServiceLevels] *)

Module DictFacts.

Lemma F64_eqb_sym (x y : float64) : F64.eqb x y = F64.eqb y x.
Proof.
  destruct x, y; cbn; try reflexivity.
  destruct (Req_dec_T r r0), (Req_dec_T r0 r); congruence.
Qed.

Lemma F64_eqb_trans (x y z : float64) :
  F64.eqb x y = true -> F64.eqb y z = true -> F64.eqb x z = true.
Proof.
  destruct x, y, z; cbn; try congruence.
  destruct (Req_dec_T r r0), (Req_dec_T r0 r1), (Req_dec_T r r1); congruence.
Qed.

Lemma cell_eqb_sym (a b : cell) : cell_eqb a b = cell_eqb b a.
Proof.
  destruct a, b; cbn; try reflexivity.
  - apply String.eqb_sym.
  - apply F64_eqb_sym.
Qed.

Lemma cell_eqb_trans (a b c : cell) :
  cell_eqb a b = true -> cell_eqb b c = true -> cell_eqb a c = true.
Proof.
  destruct a, b, c; cbn; try congruence.
  - rewrite !String.eqb_eq. congruence.
  - apply F64_eqb_trans.
Qed.

Lemma cell_eqb_true_l (a b c : cell) :
  cell_eqb a b = true -> cell_eqb a c = cell_eqb b c.
Proof.
  intros Hab. destruct (cell_eqb b c) eqn:Hbc.
  - apply (cell_eqb_trans _ _ _ Hab Hbc).
  - destruct (cell_eqb a c) eqn:Hac; [|reflexivity].
    rewrite cell_eqb_sym in Hab.
    rewrite (cell_eqb_trans _ _ _ Hab Hac) in Hbc. discriminate.
Qed.

(** Reading a dictionary after an assignment. *)
Lemma dict_lookup_set (d : dict) (k v k' : cell) :
  dict_lookup (dict_set k v d) k' =
    if cell_eqb k k' then Some v else dict_lookup d k'.
Proof.
  induction d as [|[k0 v0] d IH]; [reflexivity|].
  cbn [dict_set]. destruct (cell_eqb k0 k) eqn:E0; cbn [dict_lookup].
  - rewrite (cell_eqb_true_l _ _ _ E0). destruct (cell_eqb k k'); reflexivity.
  - rewrite IH. destruct (cell_eqb k0 k') eqn:E1; [|reflexivity].
    destruct (cell_eqb k k') eqn:E2; [|reflexivity].
    rewrite cell_eqb_sym in E2.
    rewrite (cell_eqb_trans _ _ _ E1 E2) in E0. discriminate.
Qed.

Lemma dict_lookup_fold (kvs : list (cell * cell)) (d : dict) (k : cell) :
  dict_lookup (fold_left (fun d kv => dict_set (fst kv) (snd kv) d) kvs d) k =
    fold_left (fun acc kv => if cell_eqb (fst kv) k then Some (snd kv) else acc)
              kvs (dict_lookup d k).
Proof.
  revert d. induction kvs as [|[k0 v0] kvs IH]; intros d; [reflexivity|].
  cbn [fold_left fst snd]. rewrite IH, dict_lookup_set. reflexivity.
Qed.

Lemma dict_lookup_to_dict (s : Series) (k : cell) :
  dict_lookup (Pandas.to_dict s) k = last_value k (combine (s_index s) (s_values s)).
Proof. unfold Pandas.to_dict, last_value. apply dict_lookup_fold. Qed.

End DictFacts.

(** X1. On an instance whose [J_l] and [M_l] are the dictionaries
    [to_dict] builds from two series, each getter returns the value of the
    last row labelled with the facility type, and its default (0.4,
    0.05) when no row has that label: a repeated facility type keeps its
    last row. *)
Theorem effort_getters_return_last_row (self : ServiceLevels.t) (sJ sM : Series)
    (facility_type : cell) :
  ServiceLevels.J_l self = Some (Pandas.to_dict sJ) ->
  ServiceLevels.M_l self = Some (Pandas.to_dict sM) ->
  ServiceLevels.get_zero_distance_effort self facility_type =
    Ok (default (Num (Fin 0.4%R))
          (last_value facility_type (combine (s_index sJ) (s_values sJ)))) /\
  ServiceLevels.get_effort_per_foot self facility_type =
    Ok (default (Num (Fin 0.05%R))
          (last_value facility_type (combine (s_index sM) (s_values sM)))).
Proof.
  intros HJ HM.
  unfold ServiceLevels.get_zero_distance_effort, ServiceLevels.get_effort_per_foot,
    ServiceLevels.read_attr, dict_get.
  rewrite HJ, HM. cbn [fst rbind].
  rewrite !DictFacts.dict_lookup_to_dict.
  split; destruct (last_value _ _); reflexivity.
Qed.

Lemma effort_getters_return_last_row_witness :
  ServiceLevels.get_zero_distance_effort TwoCategories.levels (Str "Hospital") =
    Ok (Num (Fin 0.4%R)) /\
  ServiceLevels.get_effort_per_foot TwoCategories.levels (Str "Hospital") =
    Ok (Num (Fin 0.05%R)).
Proof.
  apply (effort_getters_return_last_row TwoCategories.levels
           {| s_index := [Str "Clinic"; Str "Hospital"];
              s_values := [Num (Fin 0.4%R); Num (Fin 0.4%R)] |}
           {| s_index := [Str "Clinic"; Str "Hospital"];
              s_values := [Num (Fin 0.05%R); Num (Fin 0.05%R)] |}
           (Str "Hospital")); reflexivity.
Defined.

(** ** The stored service-level frame *)

Module FrameFacts.

Lemma position_lt (k : cell) (labels : list cell) (i : nat) :
  Pandas.position k labels = Some i -> (i < length labels)%nat.
Proof.
  revert i. induction labels as [|l labels IH]; intros i; cbn; [discriminate|].
  destruct (cell_eqb l k).
  - intros [= <-]. lia.
  - destruct (Pandas.position k labels) as [j|]; cbn; [|discriminate].
    intros [= <-]. specialize (IH j eq_refl). lia.
Qed.

Lemma nth_drop {A} (k i : nat) (l : list A) (d : A) :
  nth i (drop k l) d = nth (k + i) l d.
Proof.
  revert l. induction k as [|k IH]; intros l; [reflexivity|].
  destruct l as [|x l]; cbn; [destruct i; reflexivity|apply IH].
Qed.

Lemma nth_seq_map {A} (f : nat -> A) (n i : nat) (d : A) :
  (i < n)%nat -> nth i (map f (seq 0 n)) d = f i.
Proof.
  intros Hi. rewrite (nth_map_in f (seq 0 n) i d 0%nat) by (rewrite length_seq; exact Hi).
  rewrite seq_nth by exact Hi. reflexivity.
Qed.

(** Item ([i], [j]) of the transposed tail of a keyed frame. *)
Lemma transposed_item (keyed : DataFrame) (i j : nat) :
  (i < length (drop 2 (columns keyed)))%nat ->
  nth j (nth i (rows (Pandas.T (Pandas.iloc_columns_from 2 keyed))) []) (Num NaN)
    = nth (2 + i) (nth j (rows keyed) []) (Num NaN).
Proof.
  intros Hi.
  cbn [rows columns Pandas.T Pandas.iloc_columns_from].
  rewrite nth_seq_map by exact Hi.
  unfold Pandas.column_cells. cbn [rows Pandas.iloc_columns_from].
  destruct (Nat.lt_ge_cases j (length (rows keyed))) as [Hj|Hj].
  - rewrite map_map.
    rewrite (nth_map_in _ (rows keyed) j (Num NaN) []) by exact Hj.
    apply nth_drop.
  - rewrite nth_overflow by (rewrite !length_map; exact Hj).
    rewrite (nth_overflow (rows keyed)) by exact Hj.
    destruct i; reflexivity.
Qed.

End FrameFacts.

(** X2. The frame [__init__] stores as [service_levels] is labelled by
    category first.  On an instance holding the transposed tail of a
    frame keyed by facility type: [get_service_level(c, t)] with a
    category column [c] and a facility type [t] that each occur once
    returns the cell of the row of type [t] in the column of [c]; with a
    facility type that labels several rows of the table it returns no
    single cell but the Series (or frame) of all of them; and
    [get_service_level(x, _)] raises [KeyError] for every [x] that is not
    a category column, naming [x] when the second argument is a facility
    type of the table. *)
Theorem get_service_level_is_keyed_by_category (self : ServiceLevels.t)
    (keyed : DataFrame) :
  ServiceLevels.service_levels self =
    Some (Pandas.T (Pandas.iloc_columns_from 2 keyed)) ->
  (forall c t i j,
     Pandas.position c (drop 2 (columns keyed)) = Some i ->
     Pandas.position t (index keyed) = Some j ->
     Pandas.occurrences c (drop 2 (columns keyed)) = 1%nat ->
     Pandas.occurrences t (index keyed) = 1%nat ->
     ServiceLevels.get_service_level self c t =
       Ok (Pandas.Scalar (nth (2 + i) (nth j (rows keyed) []) (Num NaN)))) /\
  (forall c t i j,
     Pandas.position c (drop 2 (columns keyed)) = Some i ->
     Pandas.position t (index keyed) = Some j ->
     (1 < Pandas.occurrences t (index keyed))%nat ->
     exists several,
       ServiceLevels.get_service_level self c t = Ok several /\
       forall v, several <> Pandas.Scalar v) /\
  (forall x y,
     Pandas.position x (drop 2 (columns keyed)) = None ->
     exists k,
       ServiceLevels.get_service_level self x y = Raise (KeyError k) /\
       (Pandas.position y (index keyed) <> None -> k = cell_text x)).
Proof.
  intros Hf.
  unfold ServiceLevels.get_service_level, ServiceLevels.read_attr.
  rewrite Hf. cbn [fst rbind]. unfold Pandas.loc.
  change (index (Pandas.T (Pandas.iloc_columns_from 2 keyed)))
    with (drop 2 (columns keyed)).
  change (columns (Pandas.T (Pandas.iloc_columns_from 2 keyed)))
    with (index keyed).
  split; [|split].
  - intros c t i j Hc Ht Hc1 Ht1. rewrite Hc, Ht, Hc1, Ht1.
    rewrite FrameFacts.transposed_item by (apply (FrameFacts.position_lt c); exact Hc).
    reflexivity.
  - intros c t i j Hc Ht Hmany. rewrite Hc, Ht.
    destruct (Pandas.occurrences t (index keyed)) as [|[|m]]; [lia|lia|].
    destruct (Pandas.occurrences c (drop 2 (columns keyed))) as [|[|n]];
      eexists; (split; [reflexivity|discriminate]).
  - intros x y Hx. rewrite Hx. exists (cell_text x). split; [reflexivity|].
    reflexivity.
Qed.

Lemma get_service_level_is_keyed_by_category_witness :
  ServiceLevels.get_service_level TwoCategories.levels (Str "Health") (Str "Hospital")
    = Ok (Pandas.Scalar (Num (Fin 1%R))) /\
  (exists several,
     ServiceLevels.get_service_level RepeatedType.levels (Str "Health") (Str "Hospital")
       = Ok several /\
     forall v, several <> Pandas.Scalar v) /\
  (exists k,
     ServiceLevels.get_service_level TwoCategories.levels (Str "Hospital") (Str "Clinic")
       = Raise (KeyError k) /\
     (Pandas.position (Str "Clinic") [Str "Clinic"; Str "Hospital"] <> None ->
      k = "Hospital")).
Proof.
  pose (keyed := {| index := [Str "Clinic"; Str "Hospital"];
                    columns := [Str "Zero Distance Effort"; Str "Effort Per Foot";
                                Str "Food"; Str "Health"];
                    rows := [[Num (Fin 0.4%R); Num (Fin 0.05%R);
                              Num (Fin 0%R); Num (Fin 1%R)];
                             [Num (Fin 0.4%R); Num (Fin 0.05%R);
                              Num (Fin 0%R); Num (Fin 1%R)]] |}).
  split; [|split].
  - apply (proj1 (get_service_level_is_keyed_by_category TwoCategories.levels keyed
                    eq_refl) (Str "Health") (Str "Hospital") 1%nat 1%nat);
      reflexivity.
  - apply (proj1 (proj2 (get_service_level_is_keyed_by_category
                           RepeatedType.levels RepeatedType.keyed eq_refl))
             (Str "Health") (Str "Hospital") 1%nat 0%nat).
    + reflexivity.
    + reflexivity.
    + cbn. lia.
  - apply (proj2 (proj2 (get_service_level_is_keyed_by_category
                           TwoCategories.levels keyed eq_refl))
             (Str "Hospital") (Str "Clinic")).
    reflexivity.
Defined.

(** ** Failure of stage 1 *)

Section StageFailure.
Context {T : Type} `{ServiceLevelsLike T}.
Implicit Types self : @SocialBurdenCalculator T.

Lemma compute_pairwise_effort_raise_unchanged self e self' :
  compute_pairwise_effort self = (Raise e, self') -> self' = self.
Proof.
  unfold compute_pairwise_effort, mbind, mget, mlift, set_I_matrix, mmodify.
  repeat match goal with
         | |- context [match ?x with _ => _ end] =>
             lazymatch x with
             | context [match _ with _ => _ end] => fail
             | _ => destruct x
             end
         end; intros [=]; congruence.
Qed.

Lemma stage1_failure_propagates self e ability_column :
  I_matrix self = None -> G_matrix self = None -> E_matrix self = None ->
  fst (compute_pairwise_effort self) = Raise e ->
  compute_pairwise_effort self = (Raise e, self) /\
  compute_service_accessibility self = (Raise e, self) /\
  compute_effort_matrix self = (Raise e, self) /\
  compute_social_burden ability_column self = (Raise e, self).
Proof.
  intros HI HG HE Hraise.
  assert (H1 : compute_pairwise_effort self = (Raise e, self)).
  { destruct (compute_pairwise_effort self) as [r s] eqn:E. cbn in Hraise. subst r.
    rewrite (compute_pairwise_effort_raise_unchanged self e s E). reflexivity. }
  assert (H2 : compute_service_accessibility self = (Raise e, self)).
  { unfold compute_service_accessibility, mbind, mget. rewrite HI, H1. reflexivity. }
  assert (H3 : compute_effort_matrix self = (Raise e, self)).
  { unfold compute_effort_matrix, mbind, mget. rewrite HG, H2. reflexivity. }
  repeat split; try assumption.
  unfold compute_social_burden, mbind, mget. rewrite HE, H3. reflexivity.
Qed.

(** X3. When stage 1 raises on a calculator that has nothing cached,
    the calculator is left exactly as it was and every later stage,
    called instead, raises the same exception and leaves it as it was
    too: no matrix is stored by a failed run. *)
Theorem failed_stage1_stores_nothing self e ability_column :
  I_matrix self = None -> G_matrix self = None -> E_matrix self = None ->
  fst (compute_pairwise_effort self) = Raise e ->
  compute_pairwise_effort self = (Raise e, self) /\
  compute_service_accessibility self = (Raise e, self) /\
  compute_effort_matrix self = (Raise e, self) /\
  compute_social_burden ability_column self = (Raise e, self).
Proof. apply stage1_failure_propagates. Qed.

(** X4. Without population groups nothing can be computed: on a fresh
    calculator whose population layer is empty, [compute_social_burden]
    raises the [ValueError] of the distance computation, before any
    service-level lookup, and stores nothing. *)
Theorem empty_population_raises self ability_column :
  I_matrix self = None -> G_matrix self = None -> E_matrix self = None ->
  PopulationGroupInfo.gdf_layer (population_info self) = [] ->
  compute_social_burden ability_column self =
    (Raise (ValueError "Found array with 0 sample(s)"), self).
Proof.
  intros HI HG HE Hpop.
  apply (stage1_failure_propagates self _ ability_column HI HG HE).
  unfold compute_pairwise_effort, mbind, mget, mlift, D_matrix, pop_coords.
  rewrite Hpop. reflexivity.
Qed.
End StageFailure.

Lemma failed_stage1_stores_nothing_witness :
  let self := EmptyPopulation.calculator in
  let e := ValueError "Found array with 0 sample(s)" in
  compute_pairwise_effort self = (Raise e, self) /\
  compute_service_accessibility self = (Raise e, self) /\
  compute_effort_matrix self = (Raise e, self) /\
  compute_social_burden "Ability" self = (Raise e, self).
Proof.
  cbn zeta.
  apply (failed_stage1_stores_nothing EmptyPopulation.calculator
           (ValueError "Found array with 0 sample(s)") "Ability"); reflexivity.
Defined.

Lemma empty_population_raises_witness :
  compute_social_burden "Ability" EmptyPopulation.calculator =
    (Raise (ValueError "Found array with 0 sample(s)"), EmptyPopulation.calculator).
Proof.
  apply (empty_population_raises EmptyPopulation.calculator "Ability"); reflexivity.
Defined.

(** ** Repeating a stage *)

Section Repeat.
Context {T : Type} `{ServiceLevelsLike T}.
Implicit Types self : @SocialBurdenCalculator T.

(** What a returning call of stage 2 leaves behind. *)
Lemma compute_service_accessibility_returns self self1 :
  compute_service_accessibility self = (Ok tt, self1) ->
  exists self0 I,
    ensure I_matrix compute_pairwise_effort self = (Ok tt, self0) /\
    I_matrix self0 = Some I /\
    self1 = snd (set_G_matrix (Numpy.where_positive_reciprocal I) self0).
Proof.
  unfold compute_service_accessibility, ensure, mbind, mget, mret, operand.
  destruct (I_matrix self) as [I0|] eqn:HI.
  - rewrite HI. intros [= <-]. exists self, I0.
    unfold set_G_matrix, mmodify. cbn [snd]. rewrite HI. auto.
  - destruct (compute_pairwise_effort self) as [[[]|e] s0]; [|discriminate].
    destruct (I_matrix s0) as [I|] eqn:HI0; [|discriminate].
    intros [= <-]. exists s0, I. auto.
Qed.

(** What a returning call of stage 3 leaves behind. *)
Lemma compute_effort_matrix_returns self self1 :
  compute_effort_matrix self = (Ok tt, self1) ->
  exists self0 G S W,
    ensure G_matrix compute_service_accessibility self = (Ok tt, self0) /\
    G_matrix self0 = Some G /\ S_lm self0 = Ok S /\
    weighted_service G S = Ok W /\
    self1 = snd (set_E_matrix
                   (Numpy.nan_to_num 1e6 (Numpy.reciprocal (Numpy.zeros_to_nan W)))
                   self0).
Proof.
  unfold compute_effort_matrix, ensure, mbind, mget, mret, mlift, operand.
  destruct (G_matrix self) as [G0|] eqn:HG.
  - destruct (S_lm self) as [S|] eqn:HS; [|discriminate].
    rewrite HG. destruct (weighted_service G0 S) as [W|] eqn:HW; [|discriminate].
    unfold set_E_matrix, mmodify. cbn [E_matrix].
    intros [= <-]. exists self, G0, S, W. cbn [snd]. rewrite HG. auto.
  - destruct (compute_service_accessibility self) as [[[]|e] s0]; [|discriminate].
    destruct (S_lm s0) as [S|] eqn:HS; [|discriminate].
    destruct (G_matrix s0) as [G|] eqn:HG0; [|discriminate].
    destruct (weighted_service G S) as [W|] eqn:HW; [|discriminate].
    unfold set_E_matrix, mmodify. cbn [E_matrix].
    intros [= <-]. exists s0, G, S, W. auto.
Qed.

(** X5. Stages 2 and 3 are idempotent: when the call returns, calling
    it again on the resulting calculator returns as well and changes
    nothing, since the earlier matrices are now cached and the inputs are
    the same. *)
Theorem repeated_stage_changes_nothing self self1 :
  (compute_service_accessibility self = (Ok tt, self1) ->
   compute_service_accessibility self1 = (Ok tt, self1)) /\
  (compute_effort_matrix self = (Ok tt, self1) ->
   compute_effort_matrix self1 = (Ok tt, self1)).
Proof.
  split.
  - intros Hrun.
    destruct (compute_service_accessibility_returns self self1 Hrun)
      as (self0 & I & _ & HI & ->).
    set (s1 := snd (set_G_matrix (Numpy.where_positive_reciprocal I) self0)).
    assert (HI1 : I_matrix s1 = Some I) by exact HI.
    rewrite (compute_service_accessibility_run s1 s1 I
               (ensure_cached I_matrix _ _ I HI1) HI1).
    reflexivity.
  - intros Hrun.
    destruct (compute_effort_matrix_returns self self1 Hrun)
      as (self0 & G & S & W & _ & HG & HS & HW & ->).
    set (s1 := snd (set_E_matrix
                      (Numpy.nan_to_num 1e6 (Numpy.reciprocal (Numpy.zeros_to_nan W)))
                      self0)).
    assert (HG1 : G_matrix s1 = Some G) by exact HG.
    assert (HS1 : S_lm s1 = Ok S) by exact HS.
    rewrite (compute_effort_matrix_run s1 s1 G S W
               (ensure_cached G_matrix _ _ G HG1) HG1 HS1 HW).
    reflexivity.
Qed.
End Repeat.

Lemma repeated_stage_changes_nothing_witness :
  (let s1 := snd (compute_service_accessibility Cached.with_I) in
   compute_service_accessibility s1 = (Ok tt, s1)) /\
  (let s1 := snd (compute_effort_matrix Cached.with_G) in
   compute_effort_matrix s1 = (Ok tt, s1)).
Proof.
  cbn zeta. split.
  - apply (proj1 (repeated_stage_changes_nothing Cached.with_I
                    (snd (compute_service_accessibility Cached.with_I)))).
    reflexivity.
  - apply (proj2 (repeated_stage_changes_nothing Cached.with_G
                    (snd (compute_effort_matrix Cached.with_G)))).
    reflexivity.
Defined.

(** ** Stage 3 and stage 4 on what is cached *)

Section CachedStages.
Context {T : Type} `{ServiceLevelsLike T}.
Implicit Types self : @SocialBurdenCalculator T.
Local Open Scope R_scope.


(** X7. Stage 3 needs as many service categories as facilities: on a
    fresh calculator whose stages 1 and 2 succeed and whose [L] facility
    types carry service-level rows of [M <> L] categories,
    [compute_effort_matrix] raises [ValueError]; [I] and [G] stay stored
    and no [E] is. *)
Theorem effort_matrix_needs_square_levels self (Jf Mf : cell -> float64) S :
  I_matrix self = None -> G_matrix self = None ->
  PopulationGroupInfo.gdf_layer (population_info self) <> [] ->
  (forall ft, In ft (fac_types self) ->
     get_zero_distance_effort (service_levels self) ft = Ok (Num (Jf ft))) ->
  (forall ft, In ft (fac_types self) ->
     get_effort_per_foot (service_levels self) ft = Ok (Num (Mf ft))) ->
  service_level_rows self = Ok S ->
  ncols S <> L_facilities self ->
  exists I self',
    compute_effort_matrix self =
      (Raise (ValueError "shapes not aligned"), self') /\
    I_matrix self' = Some I /\
    G_matrix self' = Some (Numpy.where_positive_reciprocal I) /\
    E_matrix self' = E_matrix self.
Proof.
  intros HI HG Hpop HJ HM HS Hne.
  destruct (compute_effort_matrix_shape_error self Jf Mf S HI HG Hpop HJ HM HS Hne)
    as (I & Hrun).
  exists I. eexists. split; [exact Hrun|]. repeat split.
Qed.
End CachedStages.


Lemma effort_matrix_needs_square_levels_witness :
  exists I self',
    compute_effort_matrix TwoLibraries.calculator =
      (Raise (ValueError "shapes not aligned"), self') /\
    I_matrix self' = Some I /\
    G_matrix self' = Some (Numpy.where_positive_reciprocal I) /\
    E_matrix self' = None.
Proof.
  apply (effort_matrix_needs_square_levels TwoLibraries.calculator
           (fun _ => Fin 0.4%R) (fun _ => Fin 0.05%R) TwoLibraries.stacked).
  - reflexivity.
  - reflexivity.
  - discriminate.
  - intros ft [<-|[<-|[]]]; reflexivity.
  - intros ft [<-|[<-|[]]]; reflexivity.
  - reflexivity.
  - discriminate.
Defined.

(** ** Stage 4 *)

Section Stage4.
Context {T : Type} `{ServiceLevelsLike T}.
Implicit Types self : @SocialBurdenCalculator T.
Local Open Scope R_scope.


(** X9. Stage 4 checks the number of ability scores only through numpy
    broadcasting.  With [E] cached and an ability column of [K] numbers:
    if [K] differs from the number [N] of rows of [E] and neither is 1,
    [compute_social_burden] raises [ValueError] and stores no [B]; but if
    [E] has a single row and [K <> 1], the division raises nothing and a
    [B] of [K] rows is stored, one row per score. *)
Theorem social_burden_row_count ability_column self E pop_gdf ability a :
  E_matrix self = Some E ->
  PopulationGroupInfo.merge_data (population_info self) ability_column = Ok pop_gdf ->
  Pandas.getitem (Str ability_column) pop_gdf = Ok ability ->
  Numpy.as_floats (s_values ability) = Ok a ->
  length a <> nrows E -> length a <> 1%nat ->
  (nrows E <> 1%nat ->
   compute_social_burden ability_column self =
     (Raise (ValueError "operands could not be broadcast together"), self)) /\
  (nrows E = 1%nat ->
   exists B r,
     compute_social_burden ability_column self = (r, snd (set_B_matrix B self)) /\
     nrows B = length a /\ ncols B = ncols E /\
     forall n m, item B n m = F64.div (item E 0 m) (nth n a NaN)).
Proof.
  intros HE Hm Hg Ha Hne Hne1.
  assert (Hb1 : (nrows E =? length a)%nat = false)
    by (apply Nat.eqb_neq; congruence).
  assert (Hb2 : (length a =? 1)%nat = false) by (apply Nat.eqb_neq; exact Hne1).
  unfold compute_social_burden, mbind, mget, mret, mlift, operand.
  rewrite HE, Hm, Hg, HE, Ha. cbn [rbind].
  unfold Numpy.broadcast_column. rewrite Hb1, Hb2.
  split.
  - intros HN. apply Nat.eqb_neq in HN. rewrite HN. reflexivity.
  - intros HN. rewrite HN. cbn [Nat.eqb].
    unfold set_B_matrix at 1, mmodify.
    destruct (index_of _) as [labels|e];
      (eexists; eexists; split; [reflexivity|repeat split]).
Qed.

(** X10. Stage 4 stores [B] before it builds the frame it returns.  When
    the index of the service-level object does not have one label per
    column of [E], [compute_social_burden] raises [ValueError] with
    [B_matrix] already assigned, so [save_results] on the resulting
    calculator writes that [B]. *)
Theorem social_burden_stored_before_labels
    ability_column self E pop_gdf ability a labels disk output_path :
  E_matrix self = Some E ->
  PopulationGroupInfo.merge_data (population_info self) ability_column = Ok pop_gdf ->
  Pandas.getitem (Str ability_column) pop_gdf = Ok ability ->
  Numpy.as_floats (s_values ability) = Ok a ->
  length a = nrows E ->
  index_of (service_levels self) = Ok labels ->
  length labels <> ncols E ->
  output_path ∉ locked disk ->
  exists B self',
    compute_social_burden ability_column self =
      (Raise (ValueError "Shape of passed values does not match the columns"), self') /\
    B_matrix self' = Some B /\
    (forall n m, item B n m = F64.div (item E n m) (nth n a NaN)) /\
    fst (save_results output_path (self', disk)) = Ok tt.
Proof.
  intros HE Hm Hg Ha Hlen Hl Hlab Hfree.
  pose proof (broadcast_column_aligned F64.div E a (eq_sym Hlen)) as HB.
  set (B := {| nrows := nrows E; ncols := ncols E;
               item := fun i j => F64.div (item E i j) (nth i a NaN) |}) in HB.
  exists B, (snd (set_B_matrix B self)). split; [|split; [reflexivity|split]].
  - rewrite (compute_social_burden_run ability_column self self E
               pop_gdf ability a B labels); try assumption.
    + unfold frame_of_array. change (ncols B) with (ncols E).
      apply Nat.eqb_neq in Hlab. rewrite Hlab. reflexivity.
    + apply (ensure_cached E_matrix _ _ E HE).
  - reflexivity.
  - unfold save_results. cbn [B_matrix set_B_matrix mmodify snd].
    unfold frame_of_array, to_csv. cbn [rbind].
    destruct (decide (output_path ∈ locked disk)); [contradiction|reflexivity].
Qed.
End Stage4.


Lemma social_burden_row_count_witness :
  (compute_social_burden "Ability" (Cached.with_E (Cached.constant 3 1)) =
     (Raise (ValueError "operands could not be broadcast together"),
      Cached.with_E (Cached.constant 3 1))) /\
  (let self := Cached.with_E (Cached.constant 1 1) in
   exists B r,
     compute_social_burden "Ability" self = (r, snd (set_B_matrix B self)) /\
     nrows B = 2%nat /\ ncols B = 1%nat /\
     forall n m, item B n m = F64.div (Fin 0.4%R) (nth n [Fin 2%R; Fin 1%R] NaN)).
Proof.
  split.
  - apply (proj1 (social_burden_row_count "Ability"
                    (Cached.with_E (Cached.constant 3 1)) (Cached.constant 3 1)
                    (Scenario.merged (Fin 2%R) (Fin 1%R))
                    {| s_index := RangeIndex 2;
                       s_values := [Num (Fin 2%R); Num (Fin 1%R)] |}
                    [Fin 2%R; Fin 1%R] eq_refl eq_refl eq_refl eq_refl
                    ltac:(discriminate) ltac:(discriminate))).
    discriminate.
  - cbn zeta.
    apply (proj2 (social_burden_row_count "Ability"
                    (Cached.with_E (Cached.constant 1 1)) (Cached.constant 1 1)
                    (Scenario.merged (Fin 2%R) (Fin 1%R))
                    {| s_index := RangeIndex 2;
                       s_values := [Num (Fin 2%R); Num (Fin 1%R)] |}
                    [Fin 2%R; Fin 1%R] eq_refl eq_refl eq_refl eq_refl
                    ltac:(discriminate) ltac:(discriminate))).
    reflexivity.
Defined.

Lemma social_burden_stored_before_labels_witness :
  exists B self',
    compute_social_burden "Ability" (Cached.with_E (Cached.constant 2 2)) =
      (Raise (ValueError "Shape of passed values does not match the columns"), self') /\
    B_matrix self' = Some B /\
    (forall n m, item B n m = F64.div (Fin 0.4%R) (nth n [Fin 2%R; Fin 1%R] NaN)) /\
    fst (save_results "burden.csv" (self', {| files := ∅; locked := ∅ |})) = Ok tt.
Proof.
  apply (social_burden_stored_before_labels "Ability"
           (Cached.with_E (Cached.constant 2 2)) (Cached.constant 2 2)
           (Scenario.merged (Fin 2%R) (Fin 1%R))
           {| s_index := RangeIndex 2; s_values := [Num (Fin 2%R); Num (Fin 1%R)] |}
           [Fin 2%R; Fin 1%R] [Str "General"] {| files := ∅; locked := ∅ |}
           "burden.csv"); try reflexivity.
  - discriminate.
  - apply not_elem_of_empty.
Defined.

(** ** The class [ServiceLevels] as the service-level object *)

(** X11. A calculator whose [service_levels] is an instance of the class
    [ServiceLevels] cannot pass stage 3: whenever stage 2 is available
    ([G] cached, or computed without error), [compute_effort_matrix]
    raises [TypeError] at [self.service_levels[ft]], since the class
    defines no subscripting; no [E] is stored. *)
Theorem package_levels_are_not_subscriptable
    (self self1 : @SocialBurdenCalculator ServiceLevels.t) :
  ensure G_matrix compute_service_accessibility self = (Ok tt, self1) ->
  compute_effort_matrix self =
    (Raise (TypeError "'ServiceLevels' object is not subscriptable"), self1).
Proof.
  unfold ensure, compute_effort_matrix, mbind, mget, mret, mlift.
  intros Hrun. destruct (G_matrix self).
  - injection Hrun as <-. reflexivity.
  - rewrite Hrun. reflexivity.
Qed.

Lemma package_levels_are_not_subscriptable_witness :
  compute_effort_matrix PackageLevels.calculator =
    (Raise (TypeError "'ServiceLevels' object is not subscriptable"),
     PackageLevels.calculator).
Proof.
  apply (package_levels_are_not_subscriptable PackageLevels.calculator
           PackageLevels.calculator).
  reflexivity.
Defined.

(** ** The distance and accessibility matrices *)

Section Matrices.
Context {T : Type} `{ServiceLevelsLike T}.
Implicit Types self : @SocialBurdenCalculator T.
Local Open Scope R_scope.

Lemma haversine_le_PI (x y : R * R) : Sklearn.haversine x y <= PI.
Proof.
  unfold Sklearn.haversine.
  pose proof (asin_bound (sqrt
    (sin ((x.1 - y.1) / 2) ^ 2 + cos x.1 * cos y.1 * sin ((x.2 - y.2) / 2) ^ 2))).
  lra.
Qed.

(** X12. With at least one population group the distance matrix exists,
    has one row per group and one column per facility, and every item is
    a real number between 0 and half the circumference
    [pi * 6371000] m; it is 0 for a group and a facility with the same
    coordinates. *)
Theorem distance_matrix_bounds self :
  PopulationGroupInfo.gdf_layer (population_info self) <> [] ->
  exists D,
    D_matrix self = Ok D /\
    nrows D = N_groups self /\ ncols D = L_facilities self /\
    forall n l, exists d,
      item D n l = Fin d /\ 0 <= d <= PI * 6371000 /\
      (nth n (pop_coords self) (0, 0) = nth l (fac_coords self) (0, 0) -> d = 0).
Proof.
  intros Hpop.
  destruct (D_matrix_ok self Hpop) as (D & HD & Hr & Hc & Hitem).
  exists D. repeat split; try assumption.
  intros n l. exists (D_item self n l). split; [apply Hitem|].
  unfold D_item. split.
  - pose proof (HaversineFacts.haversine_nonneg
                  (nth n (pop_coords self) (0, 0)) (nth l (fac_coords self) (0, 0))).
    pose proof (haversine_le_PI
                  (nth n (pop_coords self) (0, 0)) (nth l (fac_coords self) (0, 0))).
    lra.
  - intros ->. rewrite ScenarioFacts.haversine_same_point. lra.
Qed.

(** X13. Whatever [I] holds, NaN, negative and infinite items included,
    no item of the accessibility matrix stage 2 stores is NaN and none is
    negative; an item of [I] that is not positive gives exactly 0. *)
Theorem accessibility_is_never_nan_or_negative self I :
  I_matrix self = Some I ->
  exists G,
    compute_service_accessibility self = set_G_matrix G self /\
    forall n l,
      item G n l <> NaN /\
      F64.gtb F64.zero (item G n l) = false /\
      (F64.gtb (item I n l) F64.zero = false -> item G n l = Fin 0).
Proof.
  intros HI. exists (Numpy.where_positive_reciprocal I). split.
  - apply compute_service_accessibility_run; [|exact HI].
    apply (ensure_cached _ _ _ _ HI).
  - intros n l. rewrite accessibility_item.
    assert (Hz : F64.gtb F64.zero (Fin 0) = false)
      by (apply (F64Facts.gtb_zero_false 0); lra).
    destruct (item I n l) as [| | |i] eqn:E.
    + cbn [F64.gtb F64.zero].
      split; [discriminate|split; [exact Hz|reflexivity]].
    + cbn [F64.gtb F64.zero F64.one F64.div].
      split; [discriminate|split; [exact Hz|discriminate]].
    + cbn [F64.gtb F64.zero].
      split; [discriminate|split; [exact Hz|reflexivity]].
    + destruct (F64.gtb (Fin i) F64.zero) eqn:Hg.
      * apply F64Facts.gtb_zero in Hg.
        unfold F64.one. rewrite F64Facts.div_finite by lra.
        split; [discriminate|split; [|discriminate]].
        unfold F64.gtb, F64.zero.
        destruct (Rlt_dec (1 / i) 0) as [Hneg|]; [|reflexivity].
        pose proof (Rinv_0_lt_compat _ Hg). unfold Rdiv in Hneg. lra.
      * split; [discriminate|split; [exact Hz|reflexivity]].
Qed.
End Matrices.

Lemma distance_matrix_bounds_witness :
  let self := Scenario.calculator (Fin 2%R) (Fin 1%R) in
  exists D,
    D_matrix self = Ok D /\
    nrows D = 2%nat /\ ncols D = 1%nat /\
    forall n l, exists d,
      item D n l = Fin d /\ (0 <= d <= PI * 6371000)%R /\
      (nth n (pop_coords self) (0, 0)%R = nth l (fac_coords self) (0, 0)%R ->
       d = 0%R).
Proof.
  cbn zeta.
  apply (distance_matrix_bounds (Scenario.calculator (Fin 2%R) (Fin 1%R))).
  discriminate.
Defined.

Lemma accessibility_is_never_nan_or_negative_witness :
  exists G,
    compute_service_accessibility Cached.with_I = set_G_matrix G Cached.with_I /\
    forall n l,
      item G n l <> NaN /\
      F64.gtb F64.zero (item G n l) = false /\
      (F64.gtb (item Scenario.cached_effort n l) F64.zero = false ->
       item G n l = Fin 0%R).
Proof.
  apply (accessibility_is_never_nan_or_negative Cached.with_I Scenario.cached_effort).
  reflexivity.
Defined.

(** ** [save_results] and the disk *)

Section SaveDisk.
Context {T : Type} `{ServiceLevelsLike T}.
Implicit Types self : @SocialBurdenCalculator T.

(** X14. [save_results] touches one file at most: when it raises
    (nothing computed, or the path cannot be written) the disk is as it
    was, and when it returns only [output_path] has changed, to the frame
    of [B] with default integer labels; the calculator is never
    changed. *)
Theorem save_results_writes_one_file self disk output_path :
  let r := save_results output_path (self, disk) in
  fst (snd r) = self /\
  (is_raise (fst r) -> snd (snd r) = disk) /\
  (fst r = Ok tt ->
   locked (snd (snd r)) = locked disk /\
   (forall p, p <> output_path ->
      files (snd (snd r)) !! p = files disk !! p) /\
   exists B, B_matrix self = Some B /\
     Ok (files (snd (snd r)) !! output_path) =
       rbind (frame_of_array B None) (fun f => Ok (Some f))).
Proof.
  cbn zeta. unfold save_results.
  destruct (B_matrix self) as [B|]; [|cbn; repeat split; discriminate].
  unfold frame_of_array, to_csv. cbn [rbind].
  destruct (decide (output_path ∈ locked disk)); cbn [fst snd].
  - repeat split; discriminate.
  - split; [reflexivity|]. split; [intros []|]. intros _.
    cbn [files locked]. split; [reflexivity|]. split.
    + intros p Hp. apply lookup_insert_ne. congruence.
    + exists B. split; [reflexivity|]. rewrite lookup_insert_eq. reflexivity.
Qed.
End SaveDisk.

Lemma save_results_writes_one_file_witness :
  let disk := {| files := ∅; locked := ∅ |} in
  (snd (snd (save_results "burden.csv"
               (Scenario.calculator (Fin 2%R) (Fin 1%R), disk))) = disk) /\
  (let r := save_results "burden.csv" (Cached.with_B, disk) in
   locked (snd (snd r)) = ∅ /\
   (forall p, p <> "burden.csv" -> files (snd (snd r)) !! p = (∅ : FileSystem) !! p) /\
   exists B, B_matrix Cached.with_B = Some B /\
     Ok (files (snd (snd r)) !! "burden.csv") =
       rbind (frame_of_array B None) (fun f => Ok (Some f))).
Proof.
  cbn zeta. split.
  - apply (proj1 (proj2 (save_results_writes_one_file
                           (Scenario.calculator (Fin 2%R) (Fin 1%R))
                           {| files := ∅; locked := ∅ |} "burden.csv"))).
    exact I.
  - apply (proj2 (proj2 (save_results_writes_one_file Cached.with_B
                           {| files := ∅; locked := ∅ |} "burden.csv"))).
    reflexivity.
Defined.

(** ** [PopulationGroupInfo] and [FacilityInfo] *)

Section Loaders.
Context {geom : Type} `{LoadLayers.Geopandas geom}.
Import LoadLayers.

(** X15. [PopulationGroupInfo(shp, csv)] returns an instance exactly
    when the CSV file can be read and has a column "GISJOIN"; without the
    column it raises [ValueError].  The instance holds the CSV frame as
    [ability_data], [None] as [layer] and [merged_data], and no attribute
    [gdf_layer]; the shapefile is not read. *)
Theorem population_constructor_needs_GISJOIN (fs : FileSystem) (shp csv : string)
    (df : DataFrame) :
  fs !! csv = Some df ->
  (has_column "GISJOIN" (columns df) = false ->
   PopulationGroupInfo.new (geom := geom) fs shp csv =
     Raise (ValueError "The CSV file must contain a 'GISJOIN' column.")) /\
  (has_column "GISJOIN" (columns df) = true ->
   PopulationGroupInfo.new (geom := geom) fs shp csv =
     Ok {| PopulationGroupInfo.shp_path := shp;
           PopulationGroupInfo.csv_path := csv;
           PopulationGroupInfo.layer := Some None;
           PopulationGroupInfo.ability_data := Some (Some df);
           PopulationGroupInfo.merged_data := Some None;
           PopulationGroupInfo.gdf_layer := None |}).
Proof.
  intros Hfile.
  unfold PopulationGroupInfo.new, PopulationGroupInfo.init,
    PopulationGroupInfo.load_ability_data, mbind, mget, mlift, read_csv.
  cbn [PopulationGroupInfo.csv_path]. rewrite Hfile.
  split; intros ->; reflexivity.
Qed.

Lemma population_new_has_no_gdf_layer (fs : FileSystem) shp csv
    (self : @PopulationGroupInfo.t geom) :
  PopulationGroupInfo.new fs shp csv = Ok self ->
  PopulationGroupInfo.gdf_layer self = None /\
  PopulationGroupInfo.layer self = Some None /\
  PopulationGroupInfo.merged_data self = Some None.
Proof.
  unfold PopulationGroupInfo.new, PopulationGroupInfo.init,
    PopulationGroupInfo.load_ability_data, mbind, mget, mlift, mret, mraise.
  cbn [PopulationGroupInfo.csv_path].
  destruct (read_csv fs csv) as [df|e]; [|discriminate].
  cbn. destruct (has_column "GISJOIN" (columns df)); [|discriminate].
  intros [= <-]. auto.
Qed.

(** X16. No instance the constructor returns can load its layer: since
    [__init__] never assigns [gdf_layer], [load_layer()] and
    [merge_data(column)], for every column, raise
    [AttributeError] for [gdf_layer] and leave the instance as it was,
    whatever the shapefile holds. *)
Theorem population_layer_never_loads (fs : FileSystem) shp csv
    (self : @PopulationGroupInfo.t geom) column :
  PopulationGroupInfo.new fs shp csv = Ok self ->
  PopulationGroupInfo.load_layer self = (Raise (AttributeError "gdf_layer"), self) /\
  PopulationGroupInfo.merge_data column self =
    (Raise (AttributeError "gdf_layer"), self).
Proof.
  intros Hnew.
  destruct (population_new_has_no_gdf_layer fs shp csv self Hnew) as (Hg & Hl & Hm).
  assert (Hload : PopulationGroupInfo.load_layer self =
                    (Raise (AttributeError "gdf_layer"), self)).
  { unfold PopulationGroupInfo.load_layer, mbind, PopulationGroupInfo.read_attr.
    rewrite Hg. reflexivity. }
  split; [exact Hload|].
  unfold PopulationGroupInfo.merge_data, mbind, mret.
  unfold PopulationGroupInfo.read_attr at 1. rewrite Hm.
  unfold PopulationGroupInfo.read_attr at 1. rewrite Hl.
  rewrite Hload. reflexivity.
Qed.
End Loaders.

Lemma population_constructor_needs_GISJOIN_witness :
  LoadLayers.PopulationGroupInfo.new LoaderExample.disk "groups.shp" "ability.csv" =
    Ok LoaderExample.constructed.
Proof.
  apply (proj2 (population_constructor_needs_GISJOIN LoaderExample.disk
                  "groups.shp" "ability.csv" LoaderExample.ability eq_refl)).
  reflexivity.
Defined.

Lemma population_layer_never_loads_witness :
  LoadLayers.PopulationGroupInfo.load_layer LoaderExample.constructed =
    (Raise (AttributeError "gdf_layer"), LoaderExample.constructed) /\
  LoadLayers.PopulationGroupInfo.merge_data "Ability" LoaderExample.constructed =
    (Raise (AttributeError "gdf_layer"), LoaderExample.constructed).
Proof.
  apply (population_layer_never_loads LoaderExample.disk "groups.shp" "ability.csv").
  reflexivity.
Defined.

Section LoaderFrames.
Context {geom : Type} `{LoadLayers.Geopandas geom}.
Import LoadLayers.

Lemma position_app (k : cell) (l1 l2 : list cell) :
  Pandas.position k (l1 ++ l2) =
    match Pandas.position k l1 with
    | Some i => Some i
    | None => option_map (Nat.add (length l1)) (Pandas.position k l2)
    end.
Proof.
  induction l1 as [|c l1 IH]; cbn.
  - destruct (Pandas.position k l2); reflexivity.
  - destruct (cell_eqb c k); [reflexivity|]. rewrite IH.
    destruct (Pandas.position k l1); [reflexivity|].
    destruct (Pandas.position k l2); reflexivity.
Qed.

Lemma has_column_app (name : string) (l1 l2 : list cell) :
  has_column name (l1 ++ l2) = has_column name l1 || has_column name l2.
Proof.
  unfold has_column. rewrite position_app.
  destruct (Pandas.position (Str name) l1); [reflexivity|].
  destruct (Pandas.position (Str name) l2); reflexivity.
Qed.

Lemma has_column_single (name : string) : has_column name [Str name] = true.
Proof. unfold has_column. cbn. rewrite String.eqb_refl. reflexivity. Qed.

(** A column assignment keeps the row labels and the columns there were,
    and the assigned column exists afterwards. *)
Lemma setitem_ok (name : string) (values : list cell) (df df' : DataFrame) :
  setitem name values df = Ok df' ->
  index df' = index df /\
  has_column name (columns df') = true /\
  forall other, has_column other (columns df) = true ->
                has_column other (columns df') = true.
Proof.
  unfold setitem. destruct (length values =? length (index df))%nat; [|discriminate].
  destruct (Pandas.position (Str name) (columns df)) as [p|] eqn:Hp.
  - intros [= <-]. cbn [index columns]. split; [reflexivity|]. split; [|auto].
    unfold has_column. rewrite Hp. reflexivity.
  - intros [= <-]. cbn [index columns]. split; [reflexivity|]. split.
    + rewrite has_column_app, has_column_single. apply orb_true_r.
    + intros other Ho. rewrite has_column_app, Ho. reflexivity.
Qed.

(** What [read_centroids] returns. *)
Lemma read_centroids_ok (shp lat lon : string) (gdf : GeoDataFrame geom) :
  read_centroids shp lat lon = Ok gdf ->
  exists file shapes,
    read_file shp = Ok file /\ geometry file = Some shapes /\
    geometry gdf = Some (map centroid shapes) /\
    index (attributes gdf) = index (attributes file) /\
    has_column lat (columns (attributes gdf)) = true /\
    has_column lon (columns (attributes gdf)) = true /\
    forall other, has_column other (columns (attributes file)) = true ->
                  has_column other (columns (attributes gdf)) = true.
Proof.
  unfold read_centroids.
  destruct (read_file shp) as [file|e]; [|discriminate]. cbn [rbind].
  destruct (geometry file) as [shapes|] eqn:Hg; [|discriminate]. cbn [rbind].
  destruct (setitem lat _ (attributes file)) as [a1|e] eqn:H1; [|discriminate].
  cbn [rbind].
  destruct (setitem lon _ a1) as [a2|e] eqn:H2; [|discriminate].
  cbn [rbind]. intros [= <-].
  destruct (setitem_ok _ _ _ _ H1) as (Hi1 & Hlat & Hk1).
  destruct (setitem_ok _ _ _ _ H2) as (Hi2 & Hlon & Hk2).
  exists file, shapes. cbn [attributes geometry].
  repeat split; auto. congruence.
Qed.

(** What a layer that passed [validate_layer] is like. *)
Lemma validate_layer_true (gdf : GeoDataFrame geom) :
  validate_layer gdf = true ->
  index (attributes gdf) <> [] /\
  has_column "GISJOIN" (columns (attributes gdf)) = true /\
  exists points, geometry gdf = Some points /\ forallb is_valid points = true.
Proof.
  unfold validate_layer, empty.
  destruct (index (attributes gdf)) as [|i idx] eqn:Hidx; [discriminate|].
  cbn [length Nat.eqb orb].
  destruct (length (gdf_columns gdf) =? 0)%nat; [discriminate|].
  unfold gdf_columns.
  destruct (geometry gdf) as [points|]; [|discriminate].
  rewrite has_column_app.
  destruct (has_column "GISJOIN" (columns (attributes gdf))) eqn:Hk;
    [|cbn; discriminate].
  cbn [orb negb].
  destruct (existsb (fun g => negb (is_valid g)) points) eqn:Hv; [discriminate|].
  intros _. split; [discriminate|]. split; [reflexivity|].
  exists points. split; [reflexivity|].
  apply forallb_forall. intros g Hg.
  destruct (is_valid g) eqn:E; [reflexivity|].
  assert (existsb (fun g => negb (is_valid g)) points = true).
  { apply existsb_exists. exists g. rewrite E. auto. }
  congruence.
Qed.

(** X17. Every instance [FacilityInfo(shp)] returns holds a layer that
    passed validation: it was read from the file, has at least one row,
    has the columns "GISJOIN", "Facility_latitude" and
    "Facility_longitude", its geometries are the centroids of the shapes
    read and are all valid, and [load_layer()] on the instance returns
    that layer again and changes nothing. *)
Theorem facility_instance_holds_valid_layer (shp : string)
    (self : @FacilityInfo.t geom) :
  FacilityInfo.new shp = Ok self ->
  exists file shapes gdf,
    read_file shp = Ok file /\ geometry file = Some shapes /\
    FacilityInfo.gdf_layer self = Some (Some gdf) /\
    geometry gdf = Some (map centroid shapes) /\
    forallb is_valid (map centroid shapes) = true /\
    index (attributes gdf) = index (attributes file) /\
    index (attributes gdf) <> [] /\
    has_column "GISJOIN" (columns (attributes gdf)) = true /\
    has_column "Facility_latitude" (columns (attributes gdf)) = true /\
    has_column "Facility_longitude" (columns (attributes gdf)) = true /\
    FacilityInfo.load_layer self = (Ok (Some gdf), self).
Proof.
  unfold FacilityInfo.new, FacilityInfo.init.
  unfold FacilityInfo.load_layer at 1.
  unfold mbind, mget, mlift, mret, mraise, FacilityInfo.read_attr,
    FacilityInfo.set_gdf_layer, mmodify.
  cbn [FacilityInfo.gdf_layer FacilityInfo.shp_path].
  destruct (read_centroids shp "Facility_latitude" "Facility_longitude")
    as [gdf|e] eqn:Hread; [|discriminate].
  destruct (validate_layer gdf) eqn:Hvalid; [|discriminate].
  intros [= <-].
  destruct (read_centroids_ok _ _ _ _ Hread)
    as (file & shapes & Hfile & Hshapes & Hgeo & Hidx & Hlat & Hlon & _).
  destruct (validate_layer_true gdf Hvalid) as (Hne & Hkey & points & Hp & Hv).
  exists file, shapes, gdf. cbn [FacilityInfo.gdf_layer].
  repeat split; try assumption; try reflexivity.
  rewrite Hgeo in Hp. injection Hp as <-. exact Hv.
Qed.
End LoaderFrames.

Lemma facility_instance_holds_valid_layer_witness :
  exists file shapes gdf,
    LoadLayers.read_file "facilities.shp" = Ok file /\
    LoadLayers.geometry file = Some shapes /\
    LoadLayers.FacilityInfo.gdf_layer LoaderExample.facility = Some (Some gdf) /\
    LoadLayers.geometry gdf = Some (map LoadLayers.centroid shapes) /\
    forallb LoadLayers.is_valid (map LoadLayers.centroid shapes) = true /\
    index (LoadLayers.attributes gdf) = index (LoadLayers.attributes file) /\
    index (LoadLayers.attributes gdf) <> [] /\
    LoadLayers.has_column "GISJOIN" (columns (LoadLayers.attributes gdf)) = true /\
    LoadLayers.has_column "Facility_latitude" (columns (LoadLayers.attributes gdf)) = true /\
    LoadLayers.has_column "Facility_longitude" (columns (LoadLayers.attributes gdf)) = true /\
    LoadLayers.FacilityInfo.load_layer LoaderExample.facility =
      (Ok (Some gdf), LoaderExample.facility).
Proof.
  apply (facility_instance_holds_valid_layer "facilities.shp" LoaderExample.facility).
  reflexivity.
Defined.

Section LoaderMerge.
Context {geom : Type} `{LoadLayers.Geopandas geom}.
Import LoadLayers.


End LoaderMerge.


Section LoaderRejects.
Context {geom : Type} `{LoadLayers.Geopandas geom}.
Import LoadLayers.

(** A column assignment adds no column but the one it names. *)
Lemma setitem_other (name other : string) (values : list cell) (df df' : DataFrame) :
  setitem name values df = Ok df' -> other <> name ->
  has_column other (columns df') = has_column other (columns df).
Proof.
  unfold setitem. destruct (length values =? length (index df))%nat; [|discriminate].
  destruct (Pandas.position (Str name) (columns df)) as [p|].
  - intros [= <-] _. reflexivity.
  - intros [= <-] Hne. cbn [columns]. rewrite has_column_app.
    unfold has_column at 2. cbn.
    destruct (String.eqb_spec name other) as [E|_]; [congruence|].
    apply orb_false_r.
Qed.

(** The assignment succeeds when there is one value per row. *)
Lemma setitem_returns (name : string) (values : list cell) (df : DataFrame) :
  length values = length (index df) ->
  exists df', setitem name values df = Ok df'.
Proof.
  intros Hlen. unfold setitem. rewrite Hlen, Nat.eqb_refl.
  destruct (Pandas.position (Str name) (columns df)); eexists; reflexivity.
Qed.

(** [read_centroids] on a file with one shape per row. *)
Lemma read_centroids_returns (shp lat lon : string)
    (file : GeoDataFrame geom) (shapes : list geom) :
  read_file shp = Ok file -> geometry file = Some shapes ->
  length shapes = length (index (attributes file)) ->
  exists gdf,
    read_centroids shp lat lon = Ok gdf /\
    geometry gdf = Some (map centroid shapes) /\
    index (attributes gdf) = index (attributes file) /\
    forall other, other <> lat -> other <> lon ->
      has_column other (columns (attributes gdf)) =
      has_column other (columns (attributes file)).
Proof.
  intros Hfile Hshapes Hlen. unfold read_centroids.
  rewrite Hfile. cbn [rbind]. rewrite Hshapes. cbn [rbind].
  destruct (setitem_returns lat
              (map (fun g => Num (geom_y g)) (map centroid shapes)) (attributes file))
    as [a1 H1]; [rewrite !length_map; exact Hlen|].
  rewrite H1. cbn [rbind].
  destruct (setitem_ok _ _ _ _ H1) as (Hi1 & _ & _).
  destruct (setitem_returns lon
              (map (fun g => Num (geom_x g)) (map centroid shapes)) a1)
    as [a2 H2]; [rewrite !length_map, Hi1; exact Hlen|].
  rewrite H2. cbn [rbind].
  destruct (setitem_ok _ _ _ _ H2) as (Hi2 & _ & _).
  eexists. split; [reflexivity|]. cbn [attributes geometry].
  split; [reflexivity|]. split; [congruence|].
  intros other Hlat Hlon.
  rewrite (setitem_other _ _ _ _ _ H2 Hlon). apply (setitem_other _ _ _ _ _ H1 Hlat).
Qed.

(** X19. [FacilityInfo(shp)] creates no instance from a file that has no
    row, or no "GISJOIN" column, or a shape whose centroid is not a valid
    geometry: it raises [ValueError("Shapefile validation failed.")].
    What is validated is the centroid, which has replaced the shape read
    by then; the validity of the shape itself is never looked at. *)
Theorem facility_constructor_rejects_invalid_file (shp : string)
    (file : GeoDataFrame geom) (shapes : list geom) :
  read_file shp = Ok file -> geometry file = Some shapes ->
  length shapes = length (index (attributes file)) ->
  index (attributes file) = [] \/
  has_column "GISJOIN" (columns (attributes file)) = false \/
  (exists s, In s shapes /\ is_valid (centroid s) = false) ->
  FacilityInfo.new shp = Raise validation_failed.
Proof.
  intros Hfile Hshapes Hlen Hbad.
  destruct (read_centroids_returns shp "Facility_latitude" "Facility_longitude"
              file shapes Hfile Hshapes Hlen)
    as (gdf & Hread & Hgeo & Hidx & Hcols).
  assert (Hinvalid : validate_layer gdf = false).
  { unfold validate_layer, empty. rewrite Hidx.
    destruct Hbad as [Hnil | [Hkey | (s & Hin & Hs)]].
    - rewrite Hnil. reflexivity.
    - destruct (_ || _); [reflexivity|]. rewrite Hgeo.
      unfold gdf_columns. rewrite Hgeo, has_column_app.
      rewrite Hcols, Hkey by discriminate. reflexivity.
    - destruct (_ || _); [reflexivity|]. rewrite Hgeo.
      destruct (negb _); [reflexivity|].
      assert (Hex : existsb (fun g => negb (is_valid g)) (map centroid shapes) = true).
      { apply existsb_exists. exists (centroid s). split.
        - apply in_map. exact Hin.
        - rewrite Hs. reflexivity. }
      rewrite Hex. reflexivity. }
  unfold FacilityInfo.new, FacilityInfo.init, FacilityInfo.load_layer.
  unfold mbind, mget, mlift, mret, mraise, FacilityInfo.read_attr.
  cbn [FacilityInfo.gdf_layer FacilityInfo.shp_path].
  rewrite Hread, Hinvalid. reflexivity.
Qed.
End LoaderRejects.

Lemma facility_constructor_rejects_invalid_file_witness :
  LoadLayers.FacilityInfo.new (geom := R * R) "unkeyed.shp"
    = Raise LoadLayers.validation_failed.
Proof.
  apply (facility_constructor_rejects_invalid_file "unkeyed.shp"
           LoaderExample.unkeyed [(0, 0)%R]).
  - reflexivity.
  - reflexivity.
  - reflexivity.
  - right. left. reflexivity.
Defined.
